(** * LLM text tagging pipeline: profiler, cleaner and taggers

    A shallow embedding of the Python sources [profiler.py], [cleaner.py],
    [llm_tagger.py] and [axion_ray_task_1.py], and the properties of the
    specification that were checked against it.

    Conventions.
    - A Python exception is [None] in the option monad; a [try ... except
      Exception] block is a [match] on that option.
    - A Python [str] is a [string] whose characters are read as code points
      below 256.
    - A Python [float] is a binary64 primitive float, an [int] is a [Z].
    - Library calls whose code is not part of the repository ([json.loads],
      [hashlib.md5], [float(str)], [pd.to_numeric], ...) are Section
      variables; the HTTP service is an oracle. *)

From Corelib Require Import PrimFloat SpecFloat FloatOps.
#[global] Set Warnings "-inexact-float".
From Stdlib Require Import ZArith QArith Qround String Ascii Bool Lia.
From stdpp Require Import base option list strings gmap pretty.

Local Open Scope Z_scope.
Local Open Scope string_scope.
Local Open Scope list_scope.
Local Open Scope stdpp_scope.

(* ================================================================== *)
(** * Python values and built-in operations                            *)
(* ================================================================== *)

Module Py.

(** ** Strings *)

(** [str.isspace] on the code points below 256. *)
Definition is_space (c : ascii) : bool :=
  let n := nat_of_ascii c in
  ((9 <=? n) && (n <=? 13) || (28 <=? n) && (n <=? 32)
   || (n =? 133) || (n =? 160))%nat.

(** [str.isdigit] on the code points below 256: the ASCII digits and the
    superscripts two, three and one. *)
Definition is_digit (c : ascii) : bool :=
  let n := nat_of_ascii c in
  ((48 <=? n) && (n <=? 57) || (n =? 178) || (n =? 179) || (n =? 185))%nat.

(** [str.lower] on the code points below 256. *)
Definition lower_char (c : ascii) : ascii :=
  let n := nat_of_ascii c in
  if ((65 <=? n) && (n <=? 90)
      || (192 <=? n) && (n <=? 222) && negb (n =? 215))%nat
  then ascii_of_nat (n + 32) else c.

Fixpoint lower (s : string) : string :=
  match s with
  | EmptyString => EmptyString
  | String c s' => String (lower_char c) (lower s')
  end.

Fixpoint lstrip (s : string) : string :=
  match s with
  | EmptyString => EmptyString
  | String c s' => if is_space c then lstrip s' else s
  end.

(** Drops trailing white space: a character is kept when it is not a space
    or something is kept after it. *)
Fixpoint rstrip (s : string) : string :=
  match s with
  | EmptyString => EmptyString
  | String c s' =>
      match rstrip s' with
      | EmptyString => if is_space c then EmptyString else String c EmptyString
      | r => String c r
      end
  end.

(** [s.strip()] *)
Definition strip (s : string) : string := rstrip (lstrip s).

Fixpoint drop_chars (n : nat) (s : string) : string :=
  match n, s with
  | O, _ => s
  | S _, EmptyString => EmptyString
  | S n', String _ s' => drop_chars n' s'
  end.

(** [s.split(sep, 1)] when [sep] occurs in [s]: the text before the first
    occurrence and the text after it; [None] when [sep] does not occur
    (Python then returns the one-element list). *)
Fixpoint split_first (sep s : string) : option (string * string) :=
  if String.prefix sep s then Some (EmptyString, drop_chars (String.length sep) s)
  else match s with
       | EmptyString => None
       | String c s' =>
           match split_first sep s' with
           | Some (a, b) => Some (String c a, b)
           | None => None
           end
       end.

(** [sep in s] for two strings. *)
Definition contains (sep s : string) : bool :=
  match split_first sep s with Some _ => true | None => false end.

(** [s.split(sep)] for a non-empty [sep]: occurrences are taken from the left
    and do not overlap. Every split consumes a character, so the length of [s]
    bounds the number of splits. *)
Fixpoint split_fuel (fuel : nat) (sep s : string) : list string :=
  match fuel with
  | O => [s]
  | S fuel' =>
      match split_first sep s with
      | None => [s]
      | Some (a, b) => a :: split_fuel fuel' sep b
      end
  end.

Definition split (sep s : string) : list string :=
  split_fuel (String.length s) sep s.

(** [sep.join(parts)] *)
Fixpoint join (sep : string) (parts : list string) : string :=
  match parts with
  | [] => EmptyString
  | [p] => p
  | p :: rest => p +:+ sep +:+ join sep rest
  end.

(** ** Values *)

(** What [json.loads] can return, which is also what a cell of a row can
    hold: [None], [bool], [int], [float], [str], [list] and [dict] with
    string keys. *)
#[local] Set Warnings "-register-all".
Inductive value : Type :=
| VNone
| VBool (b : bool)
| VInt (z : Z)
| VFloat (f : float)
| VStr (s : string)
| VList (l : list value)
| VDict (d : gmap string value).
#[local] Set Warnings "register-all".

(** [v == s] for a string literal [s]: only a [str] equals a [str]. *)
Definition eq_str (v : value) (s : string) : bool :=
  match v with VStr s' => String.eqb s' s | _ => false end.

(** [v in l] for a list of strings [l]: membership by [==]. *)
Definition in_strs (v : value) (l : list string) : bool :=
  existsb (eq_str v) l.

(** [int(b)] *)
Definition int_of_bool (b : bool) : Z := if b then 1 else 0.

(** [float(z)]: the nearest binary64, ties to even; [OverflowError] when the
    integer is too large. *)
Definition float_of_int (z : Z) : option float :=
  match binary_normalize prec emax z 0 false with
  | S754_infinity _ => None
  | sf => Some (SF2Prim sf)
  end.

(** [v * k] for a float [k], as in [v *= k]. Numbers are multiplied as
    floats; [str * float], [list * float], [None * float] and
    [dict * float] raise [TypeError]. *)
Definition mul_float (v : value) (k : float) : option value :=
  match v with
  | VFloat f => Some (VFloat (f * k)%float)
  | VInt z => f ← float_of_int z; Some (VFloat (f * k)%float)
  | VBool b => f ← float_of_int (int_of_bool b); Some (VFloat (f * k)%float)
  | _ => None
  end.

(** Truth value of an object, as tested by [if v] and [v or w]. *)
Definition truthy (v : value) : bool :=
  match v with
  | VNone => false
  | VBool b => b
  | VInt z => negb (z =? 0)%Z
  | VFloat f => negb (f =? 0)%float
  | VStr s => negb (String.eqb s EmptyString)
  | VList l => match l with [] => false | _ => true end
  | VDict d => negb (size d =? 0)%nat
  end.

(** [v[key]] for a string key: defined on a [dict] that has the key;
    [KeyError] or [TypeError] otherwise. *)
Definition getitem (v : value) (key : string) : option value :=
  match v with VDict d => d !! key | _ => None end.

(** [v[0]]: the first element of a list or the first character of a string;
    a [dict] from JSON has no integer key. *)
Definition getitem0 (v : value) : option value :=
  match v with
  | VList (x :: _) => Some x
  | VStr (String c _) => Some (VStr (String c EmptyString))
  | _ => None
  end.

End Py.

(* ================================================================== *)
(** * The HTTP exchange with the classification service                *)
(* ================================================================== *)

Module Http.
Import Py.

(** What the code uses of a [requests.Response]: [raise_for_status()], which
    returns or raises [HTTPError] (the library decides on the status code),
    and [json()], which returns the decoded body or raises. *)
Record Response : Type := {
  raise_for_status : option unit;
  json : option value
}.

(** [response.json()["choices"][0]["message"]["content"]] *)
Definition message_content (response : Response) : option value :=
  body ← json response;
  choices ← getitem body "choices";
  choice ← getitem0 choices;
  message ← getitem choice "message";
  getitem message "content".

(** The ways the [try] block around the call fails, given what
    [requests.post] did: a network error, an HTTP error status, a body that
    is no JSON, a missing field on the way to the content, a content that is
    no string, and a content from which no JSON is parsed. [parse] is the
    last step of the block, from the content to the parsed value. *)
Inductive call_fails (parse : string -> option value)
  : option Response -> Prop :=
| network_error :
    call_fails parse None
| http_error response :
    raise_for_status response = None ->
    call_fails parse (Some response)
| body_not_json response :
    json response = None ->
    call_fails parse (Some response)
| missing_field response :
    message_content response = None ->
    call_fails parse (Some response)
| content_not_str response content :
    message_content response = Some content ->
    (forall s, content <> VStr s) ->
    call_fails parse (Some response)
| content_not_json response s :
    message_content response = Some (VStr s) ->
    parse s = None ->
    call_fails parse (Some response).

End Http.

(* ================================================================== *)
(** * axion_ray_task_1.py: the taxonomy-constrained tagger             *)
(* ================================================================== *)

Module AxionRay.
Import Py Http.

Definition NOT_MENTIONED : string := "Not Mentioned".

(** The [taxonomy] dict: its five keys are fixed when it is built, and its
    labels are strings ([create_llm_prompt] joins them). *)
Record Taxonomy : Type := {
  Root_Cause : list string;
  Symptom_Condition : list string;
  Symptom_Component : list string;
  Fix_Condition : list string;
  Fix_Component : list string
}.

(** A row of the task sheet: the text of the three cells the tagger reads,
    [None] for a missing cell ([pd.notna] false). *)
Record Row : Type := {
  Complaint : option string;
  Cause : option string;
  Correction : option string
}.

Definition nl : string := String (ascii_of_nat 10) EmptyString.
Definition dq : string := String (ascii_of_nat 34) EmptyString.
Definition quoted (s : string) : string := dq +:+ s +:+ dq.

Definition create_llm_prompt
    (complaint cause correction : string) (taxonomy : Taxonomy) : string :=
  let taxonomy_str := join nl [
    "Root Cause options: " +:+ join ", " (Root_Cause taxonomy);
    "Symptom Condition options: " +:+ join ", " (Symptom_Condition taxonomy);
    "Symptom Component options: " +:+ join ", " (Symptom_Component taxonomy);
    "Fix Condition options: " +:+ join ", " (Fix_Condition taxonomy);
    "Fix Component options: " +:+ join ", " (Fix_Component taxonomy) ] in
  let options := "[" +:+ join ", " (map quoted ["option1"; "option2"; "option3"]) +:+ "]" in
  join nl [
    "You are an expert in industrial maintenance classification.";
    "";
    "ANALYZE THE FOLLOWING MAINTENANCE RECORD:";
    "Complaint: " +:+ complaint;
    "Cause: " +:+ cause;
    "Correction: " +:+ correction;
    "";
    "CLASSIFY USING ONLY THESE PREDEFINED CATEGORIES:";
    taxonomy_str;
    "";
    "CLASSIFICATION RULES:";
    "1. Extract Root Cause from the Cause field";
    "2. Extract Symptom Conditions (up to 3) from Complaint field";
    "3. Extract Symptom Components (up to 3) from Complaint field";
    "4. Extract Fix Conditions (up to 3) from Correction field";
    "5. Extract Fix Components (up to 3) from Correction field";
    "6. Use " +:+ quoted "Not Mentioned" +:+ " if nothing matches";
    "7. Use ONLY terms from the provided options";
    "8. At least ONE Symptom Condition, ONE Symptom Component, ONE Fix Condition, and ONE Fix Component must be identified if possible";
    "";
    "RETURN JSON FORMAT:";
    "{";
    "  " +:+ quoted "root_cause" +:+ ": " +:+ quoted "one option from Root Cause list" +:+ ",";
    "  " +:+ quoted "symptom_condition" +:+ ": " +:+ options +:+ ",";
    "  " +:+ quoted "symptom_component" +:+ ": " +:+ options +:+ ",";
    "  " +:+ quoted "fix_condition" +:+ ": " +:+ options +:+ ",";
    "  " +:+ quoted "fix_component" +:+ ": " +:+ options +:+ ",";
    "  " +:+ quoted "confidence" +:+ ": 0.95";
    "}";
    "" ].

(** [["Not Mentioned", "", ""]] *)
Definition default_list : value :=
  VList [VStr NOT_MENTIONED; VStr ""; VStr ""].

(** The dict returned when the call fails, and again by [process_row] when
    validation raises. *)
Definition default_result : gmap string value :=
  list_to_map [
    ("root_cause", VStr NOT_MENTIONED);
    ("symptom_condition", default_list);
    ("symptom_component", default_list);
    ("fix_condition", default_list);
    ("fix_component", default_list);
    ("confidence", VFloat 0) ].

(** The text handed to [json.loads]: the inside of the first fenced json
    block when the fence is closed, the whole content otherwise. *)
Definition json_str_of (content : string) : string :=
  match split_first "```json" content with
  | Some (_, rest) =>
      match split_first "```" rest with
      | Some (inner, _) => strip inner
      | None => content
      end
  | None => content
  end.

Section Service.

(** [json.loads]: the parsed value, or [None] when it raises. *)
Variable json_loads : string -> option value.

(** [requests.post] for the [n]-th row with the given prompt: the response,
    or [None] when the request raises (connection error, timeout). *)
Variable post : nat -> string -> option Response.

(** The [try] block of [call_llm_api]. A content that is not a [str] raises
    in every case: slicing raises on [None], numbers and dicts, and a list
    either has no [split] or is refused by [json.loads]. *)
Definition call_llm_api_try (n : nat) (prompt : string) : option value :=
  response ← post n prompt;
  _ ← raise_for_status response;
  content ← message_content response;
  match content with
  | VStr s => json_loads (json_str_of s)
  | _ => None
  end.

Definition call_llm_api (n : nat) (prompt : string) : value :=
  match call_llm_api_try n prompt with
  | Some result => result
  | None => VDict default_result
  end.

(** [validated["confidence"] *= k] *)
Definition imul_confidence (validated : gmap string value) (k : float)
  : option (gmap string value) :=
  c ← validated !! "confidence";
  c' ← mul_float c k;
  Some (<["confidence" := c']> validated).

(** The test of the inner loop:
    [item in taxonomy[key] or item == "Not Mentioned" or item == ""]. *)
Definition item_ok (allowed : list string) (item : value) : bool :=
  in_strs item allowed || eq_str item NOT_MENTIONED || eq_str item "".

(** The inner loop over the items of one list field. *)
Fixpoint validate_items (allowed : list string) (items valid_list : list value)
    (validated : gmap string value)
  : option (list value * gmap string value) :=
  match items with
  | [] => Some (valid_list, validated)
  | item :: rest =>
      if item_ok allowed item
      then validate_items allowed rest (valid_list ++ [item]) validated
      else
        validated' ← imul_confidence validated 0.9;
        validate_items allowed rest (valid_list ++ [VStr NOT_MENTIONED]) validated'
  end.

(** [while len(valid_list) < 3: valid_list.append("")] *)
Definition pad3 (valid_list : list value) : list value :=
  valid_list ++ replicate (3 - length valid_list) (VStr "").

Definition list_fields : list (string * (Taxonomy -> list string)) :=
  [ ("symptom_condition", Symptom_Condition);
    ("symptom_component", Symptom_Component);
    ("fix_condition", Fix_Condition);
    ("fix_component", Fix_Component) ].

(** One turn of the loop over [list_fields]. *)
Definition validate_field (taxonomy : Taxonomy) (validated : gmap string value)
    (field : string * (Taxonomy -> list string)) : option (gmap string value) :=
  let '(field_key, taxonomy_key) := field in
  match validated !! field_key with
  | Some (VList items) =>
      '(valid_list, validated') ←
        validate_items (taxonomy_key taxonomy) items [] validated;
      Some (<[field_key := VList (take 3 (pad3 valid_list))]> validated')
  | _ => Some (<[field_key := default_list]> validated)
  end.

Fixpoint validate_fields (taxonomy : Taxonomy)
    (fields : list (string * (Taxonomy -> list string)))
    (validated : gmap string value) : option (gmap string value) :=
  match fields with
  | [] => Some validated
  | field :: rest =>
      validated' ← validate_field taxonomy validated field;
      validate_fields taxonomy rest validated'
  end.

(** [validate_llm_output]. Only a dict has both [copy] and [get]; any other
    value raises [AttributeError]. *)
Definition validate_llm_output (llm_output : value) (taxonomy : Taxonomy)
  : option (gmap string value) :=
  match llm_output with
  | VDict validated =>
      let root_cause := default VNone (validated !! "root_cause") in
      validated ←
        (if negb (in_strs root_cause (Root_Cause taxonomy))
            && negb (eq_str root_cause NOT_MENTIONED)
         then imul_confidence (<["root_cause" := VStr NOT_MENTIONED]> validated) 0.8
         else Some validated);
      validate_fields taxonomy list_fields validated
  | _ => None
  end.

Definition cell_text (cell : option string) : string := default "" cell.

Definition process_row (n : nat) (row : Row) (taxonomy : Taxonomy)
  : gmap string value :=
  let complaint := cell_text (Complaint row) in
  let cause := cell_text (Cause row) in
  let correction := cell_text (Correction row) in
  let prompt := create_llm_prompt complaint cause correction taxonomy in
  let llm_result := call_llm_api n prompt in
  match validate_llm_output llm_result taxonomy with
  | Some validated => validated
  | None => default_result
  end.

(** [val if val else "Not Mentioned"] *)
Definition cell_of (val : value) : value :=
  if truthy val then val else VStr NOT_MENTIONED.

(** The names [f"{axis} {i+1}"] of the columns of one axis. *)
Definition axis_column (axis : string) (i : nat) : string :=
  axis +:+ " " +:+ pretty (S i).

(** [for i, val in enumerate(result[key][:3]): df_task.at[idx, ...] = ...].
    [process_row] only returns lists under these keys. *)
Definition update_axis (result : gmap string value) (key axis : string)
    (cells : gmap string value) : option (gmap string value) :=
  v ← result !! key;
  match v with
  | VList l =>
      Some (foldl (fun acc iv => <[axis_column axis iv.1 := cell_of iv.2]> acc)
                  cells (imap pair (take 3 l)))
  | _ => None
  end.

(** The body of the main loop after [process_row]: the cells written for
    the row, or [None] when a subscript raises (nothing catches it). *)
Definition update_row (result : gmap string value) : option (gmap string value) :=
  root_cause ← result !! "root_cause";
  let cells := <["Root Cause" := root_cause]> (∅ : gmap string value) in
  cells ← update_axis result "symptom_condition" "Symptom Condition" cells;
  cells ← update_axis result "symptom_component" "Symptom Component" cells;
  cells ← update_axis result "fix_condition" "Fix Condition" cells;
  cells ← update_axis result "fix_component" "Fix Component" cells;
  confidence ← result !! "confidence";
  Some (<["Confidence" := confidence]> cells).

(** The main loop over the rows, numbered from [n]. *)
Fixpoint main_loop (n : nat) (rows : list Row) (taxonomy : Taxonomy)
  : option (list (gmap string value)) :=
  match rows with
  | [] => Some []
  | row :: rest =>
      cells ← update_row (process_row n row taxonomy);
      out ← main_loop (S n) rest taxonomy;
      Some (cells :: out)
  end.

End Service.

(** [df_task["Confidence"] < 0.7] on one row. The column is a float column:
    a float is stored as it is and an int as its float; what the comparison
    does on any other stored object is not modelled ([None]). *)
Definition low_confidence (cells : gmap string value) : option bool :=
  c ← cells !! "Confidence";
  match c with
  | VFloat f => Some (f <? 0.7)%float
  | VInt z => f ← float_of_int z; Some (f <? 0.7)%float
  | _ => None
  end.

(** [len(low_confidence_rows)], the number reported for manual review. *)
Definition low_confidence_count (out : list (gmap string value)) : option nat :=
  flags ← mapM low_confidence out;
  Some (length (filter (fun b => b = true) flags)).

(** ** Vocabulary of the properties *)

(** A label the specification allows on an axis: a string that is a member
    of the axis, the sentinel, or the empty string. *)
Definition allowed_label (allowed : list string) (v : value) : Prop :=
  exists s, v = VStr s /\ (s ∈ allowed \/ s = NOT_MENTIONED \/ s = "").

(** What the inner loop appends for an item. *)
Definition repair (allowed : list string) (item : value) : value :=
  if item_ok allowed item then item else VStr NOT_MENTIONED.

(** The items of a list for which the confidence is scaled. *)
Definition bad_items (allowed : list string) (items : list value) : nat :=
  length (filter (fun item => item_ok allowed item = false) items).

(** [c *= factor] on a confidence that may be absent. *)
Definition times (factor : float) (oc : option value) : option value :=
  oc ≫= fun c => mul_float c factor.

(** [k] successive multiplications by [factor]. *)
Definition scaled (factor : float) (k : nat) (c : float) : float :=
  Nat.iter k (fun x => (x * factor)%float) c.

(** What validation stores under a list field, given what the field held:
    the repaired items padded and cut to three, or the default list when
    the field is missing or is not a list. *)
Definition validated_list (allowed : list string) (field : option value)
  : list value :=
  match field with
  | Some (VList items) => take 3 (pad3 (map (repair allowed) items))
  | _ => [VStr NOT_MENTIONED; VStr ""; VStr ""]
  end.

(** The items of a field of the service's answer when it is a list. *)
Definition items_of (field : option value) : list value :=
  match field with Some (VList items) => items | _ => [] end.

(** The number of multiplications by 0.9 over the four list fields. *)
Definition total_bad (taxonomy : Taxonomy)
    (fields : list (string * (Taxonomy -> list string)))
    (d : gmap string value) : nat :=
  sum_list (map (fun field => bad_items (field.2 taxonomy)
                                (items_of (d !! field.1))) fields).

(** Whether the root cause of the answer is replaced. *)
Definition root_bad (taxonomy : Taxonomy) (d : gmap string value) : bool :=
  let root_cause := default VNone (d !! "root_cause") in
  negb (in_strs root_cause (Root_Cause taxonomy))
  && negb (eq_str root_cause NOT_MENTIONED).

(** The labels of a validated result are allowed: the root cause, and three
    entries under each list field. *)
Definition labels_ok (taxonomy : Taxonomy) (result : gmap string value) : Prop :=
  (exists s, result !! "root_cause" = Some (VStr s)
             /\ (s ∈ Root_Cause taxonomy \/ s = NOT_MENTIONED))
  /\ (forall key axis, (key, axis) ∈ list_fields ->
        exists l, result !! key = Some (VList l) /\ length l = 3%nat
                  /\ Forall (allowed_label (axis taxonomy)) l).

(** The cells written for a row whose call failed. *)
Definition failed_cells : gmap string value :=
  list_to_map [
    ("Root Cause", VStr NOT_MENTIONED);
    ("Symptom Condition 1", VStr NOT_MENTIONED);
    ("Symptom Condition 2", VStr NOT_MENTIONED);
    ("Symptom Condition 3", VStr NOT_MENTIONED);
    ("Symptom Component 1", VStr NOT_MENTIONED);
    ("Symptom Component 2", VStr NOT_MENTIONED);
    ("Symptom Component 3", VStr NOT_MENTIONED);
    ("Fix Condition 1", VStr NOT_MENTIONED);
    ("Fix Condition 2", VStr NOT_MENTIONED);
    ("Fix Condition 3", VStr NOT_MENTIONED);
    ("Fix Component 1", VStr NOT_MENTIONED);
    ("Fix Component 2", VStr NOT_MENTIONED);
    ("Fix Component 3", VStr NOT_MENTIONED);
    ("Confidence", VFloat 0) ].

(** The columns the script creates when the sheet lacks them, which are
    the columns the main loop writes. *)
Definition required_columns : list string :=
  [ "Root Cause";
    "Symptom Condition 1"; "Symptom Condition 2"; "Symptom Condition 3";
    "Symptom Component 1"; "Symptom Component 2"; "Symptom Component 3";
    "Fix Condition 1"; "Fix Condition 2"; "Fix Condition 3";
    "Fix Component 1"; "Fix Component 2"; "Fix Component 3";
    "Confidence" ].

(** The keys validation writes. *)
Definition written_keys : list string :=
  ["root_cause"; "symptom_condition"; "symptom_component"; "fix_condition";
   "fix_component"; "confidence"].


#[global] Instance allowed_label_dec allowed v :
  Decision (allowed_label allowed v).
Proof.
  destruct v as [| | | |s| |];
    try (right; intros (s' & Hs & _); discriminate).
  destruct (decide (s ∈ allowed \/ s = NOT_MENTIONED \/ s = "")) as [H|H].
  - left. exists s. split; [reflexivity|exact H].
  - right. intros (s' & Hs & H'). injection Hs as <-. exact (H H').
Defined.


(** The elements of a field of the answer that the rule replaces; none
    when the field is missing or is no list. *)
Definition rejected (allowed : list string) (field : option value) : nat :=
  length (filter (fun item => ~ allowed_label allowed item) (items_of field)).

(** The scenario of the specification: the service answers with a
    component that is no exact member of the taxonomy. *)
Definition scenario_taxonomy : Taxonomy :=
  {| Root_Cause := ["Wear"];
     Symptom_Condition := ["Noise (clicking, rubbing)"];
     Symptom_Component := ["Steering wheel (main component)"; "Horn mechanism"];
     Fix_Condition := ["Part replacement"];
     Fix_Component := ["Steering wheel (main component)"] |}.

Definition scenario_answer : gmap string value :=
  list_to_map [
    ("root_cause", VStr "Not Mentioned");
    ("symptom_condition", VList [VStr "Noise (clicking, rubbing)"]);
    ("symptom_component", VList [VStr "Steering Wheel"]);
    ("fix_condition", VList []);
    ("fix_component", VList []);
    ("confidence", VFloat 0.95) ].

(** The prompt [process_row] builds for a row. *)
Definition prompt_of (row : Row) (taxonomy : Taxonomy) : string :=
  create_llm_prompt (cell_text (Complaint row)) (cell_text (Cause row))
    (cell_text (Correction row)) taxonomy.

(** The thirteen label columns with the taxonomy axis each belongs to. *)
Definition label_columns : list (string * (Taxonomy -> list string)) :=
  ("Root Cause", Root_Cause) ::
  flat_map (fun a => map (fun i => (axis_column a.1 i, a.2)) [0; 1; 2]%nat)
    [ ("Symptom Condition", Symptom_Condition);
      ("Symptom Component", Symptom_Component);
      ("Fix Condition", Fix_Condition);
      ("Fix Component", Fix_Component) ].

End AxionRay.

(* ================================================================== *)
(** * llm_tagger.py: the cached tagger and the rule-based tags          *)
(* ================================================================== *)

Module LLMTagger.
Import Py Http.

(** The object state of an [LLMTagger] that [_call_llm] reads and writes,
    with a log of the prompts sent by [requests.post], oldest first. *)
Record state : Type := {
  llm_cache : gmap string value;
  requests : list string
}.

(** [LLMTagger.__init__]: an empty cache; nothing has been sent. *)
Definition init : state := {| llm_cache := ∅; requests := [] |}.

(** [{"issues": [], "components": [], "actions": []}] *)
Definition failed_result : value :=
  VDict (list_to_map [("issues", VList []); ("components", VList []);
                      ("actions", VList [])]).

(** The text handed to [json.loads]:
    [content.split("```json")[-1].split("```")[0].strip()] when the content
    has a json fence, the content otherwise. *)
Definition json_str_of (content : string) : string :=
  if contains "```json" content
  then strip (default "" (head (split "```"
                (default "" (last (split "```json" content))))))
  else content.

(** [if key not in result: result[key] = []]. On a list or a string the
    assignment raises [TypeError]; on [None] and on numbers the membership
    test does. *)
Definition ensure_key (result : value) (key : string) : option value :=
  match result with
  | VDict d =>
      match d !! key with
      | Some _ => Some result
      | None => Some (VDict (<[key := VList []]> d))
      end
  | VList l => if existsb (fun v => eq_str v key) l then Some result else None
  | VStr s => if contains key s then Some result else None
  | _ => None
  end.

Fixpoint ensure_keys (keys : list string) (result : value) : option value :=
  match keys with
  | [] => Some result
  | key :: rest => result' ← ensure_key result key; ensure_keys rest result'
  end.

Section Tagger.

(** [hashlib.md5(prompt.encode()).hexdigest()] *)
Variable md5_hexdigest : string -> string.

(** [json.loads]: the parsed value, or [None] when it raises. *)
Variable json_loads : string -> option value.

(** [requests.post] for the request sent after [n] earlier ones, with the
    given prompt: the response, or [None] when the request raises. *)
Variable post : nat -> string -> option Response.

Definition _generate_llm_cache_key (prompt : string) : string :=
  md5_hexdigest prompt.

(** The [try] block of [_call_llm]. A content that is not a [str] raises in
    every case: the membership test raises on [None] and numbers, and a list
    or a dict either has no [split] or is refused by [json.loads]. *)
Definition call_llm_try (n : nat) (prompt : string) : option value :=
  response ← post n prompt;
  _ ← raise_for_status response;
  content ← message_content response;
  match content with
  | VStr s => json_loads (json_str_of s)
  | _ => None
  end.

(** [_call_llm]: the returned value ([None] when an exception leaves the
    method) and the state afterwards. *)
Definition _call_llm (prompt : string) (st : state) : option value * state :=
  let cache_key := _generate_llm_cache_key prompt in
  match llm_cache st !! cache_key with
  | Some cached => (Some cached, st)
  | None =>
      let sent := requests st ++ [prompt] in
      let result :=
        match call_llm_try (length (requests st)) prompt with
        | Some result => result
        | None => failed_result
        end in
      match ensure_keys ["issues"; "components"; "actions"] result with
      | Some result =>
          (Some result,
           {| llm_cache := <[cache_key := result]> (llm_cache st);
              requests := sent |})
      | None => (None, {| llm_cache := llm_cache st; requests := sent |})
      end
  end.

(** The calls of one run, in order: [extract_tags] calls [_call_llm] once
    for each row that has text, with the prompt built from the row, and
    nothing else touches the cache. An exception leaves the loop, so the
    run stops at the first call that raises ([None] for the results). When
    [extract_tags] itself raises on a returned value (it subscripts and
    joins the result), the run is the run of the prompts up to that row. *)
Fixpoint run (prompts : list string) (st : state)
  : option (list value) * state :=
  match prompts with
  | [] => (Some [], st)
  | prompt :: rest =>
      match _call_llm prompt st with
      | (Some result, st') =>
          let '(results, st'') := run rest st' in
          (cons result <$> results, st'')
      | (None, st') => (None, st')
      end
  end.

(** Every prompt sent so far has its key in the cache. *)
Definition sent_cached (st : state) : Prop :=
  forall p, p ∈ requests st ->
            is_Some (llm_cache st !! _generate_llm_cache_key p).

(** Every key in the cache is the key of a prompt sent so far. *)
Definition cached_sent (st : state) : Prop :=
  forall k, is_Some (llm_cache st !! k) ->
            exists p, p ∈ requests st /\ _generate_llm_cache_key p = k.

End Tagger.

(** ** Rule-based tags *)

(** The five columns [extract_advanced_tags] fills for a row. *)
Record Tags : Type := {
  REPAIR_COMPLEXITY : string;
  VEHICLE_SYSTEM : string;
  FAILURE_MODE : string;
  REPAIR_URGENCY : string;
  DIAGNOSTIC_METHOD : string
}.

(** [row.get(key, default)] on a row, a mapping from column names to cells. *)
Definition row_get (row : gmap string value) (key : string) (dflt : value)
  : value :=
  default dflt (row !! key).

(** [isinstance(v, (int, float))]; a [bool] is an [int]. *)
Definition is_number (v : value) : bool :=
  match v with VInt _ | VFloat _ | VBool _ => true | _ => false end.

(** The float of a small integer literal of the source. *)
Definition lit (k : Z) : float := SF2Prim (binary_normalize prec emax k 0 false).

(** [a - b] on numbers: exact on two ints, in floats otherwise. *)
Definition sub (a b : value) : option value :=
  let as_int v := match v with
                  | VInt z => Some z | VBool b => Some (int_of_bool b)
                  | _ => None end in
  let as_float v := match v with
                    | VFloat f => Some f
                    | _ => z ← as_int v; float_of_int z end in
  match as_int a, as_int b with
  | Some x, Some y => Some (VInt (x - y))
  | _, _ => x ← as_float a; y ← as_float b; Some (VFloat (x - y)%float)
  end.

(** [v < k], [v > k] and [v == k] for an integer literal [k] that a float
    holds exactly. Ordering raises [TypeError] on what is not a number;
    equality never raises. *)
Definition lt_lit (v : value) (k : Z) : option bool :=
  match v with
  | VInt z => Some (z <? k)%Z
  | VBool b => Some (int_of_bool b <? k)%Z
  | VFloat f => Some (f <? lit k)%float
  | _ => None
  end.

Definition gt_lit (v : value) (k : Z) : option bool :=
  match v with
  | VInt z => Some (k <? z)%Z
  | VBool b => Some (k <? int_of_bool b)%Z
  | VFloat f => Some (lit k <? f)%float
  | _ => None
  end.

Definition eq_lit (v : value) (k : Z) : bool :=
  match v with
  | VInt z => (z =? k)%Z
  | VBool b => (int_of_bool b =? k)%Z
  | VFloat f => (f =? lit k)%float
  | _ => false
  end.

(** ["".join(c for c in s if c.isdigit() or c == ".")] *)
Fixpoint digits_and_dots (s : string) : string :=
  match s with
  | EmptyString => EmptyString
  | String c s' =>
      if is_digit c || Ascii.eqb c "."
      then String c (digits_and_dots s') else digits_and_dots s'
  end.

Section Rules.

(** [str(v)] for a float, a list or a dict. *)
Variable repr : value -> string.

(** [float(s)] for a non-empty string: the float, or [None] when it raises
    [ValueError]. *)
Variable float_of_str : string -> option float.

(** [str(v)] *)
Definition str (v : value) : string :=
  match v with
  | VStr s => s
  | VNone => "None"
  | VBool true => "True"
  | VBool false => "False"
  | VInt z => pretty z
  | _ => repr v
  end.

(** [if isinstance(v, str): v = float(<digits and dots of v> or 0)] *)
Definition to_float_if_str (v : value) : option value :=
  match v with
  | VStr s =>
      let kept := digits_and_dots s in
      if String.eqb kept "" then Some (VFloat 0)
      else f ← float_of_str kept; Some (VFloat f)
  | _ => Some v
  end.

Definition any_in (terms : list string) (text : string) : bool :=
  existsb (fun term => contains term text) terms.

Definition repair_complexity (parts_cost : value) (combined_text : string)
  : option string :=
  high ← gt_lit parts_cost 1000;
  if high || contains "replaced" combined_text
             && (contains "module" combined_text
                 || contains "programming" combined_text)
  then Some "High"
  else
    medium ← gt_lit parts_cost 300;
    if medium || contains "replaced" combined_text then Some "Medium"
    else if any_in ["adjusted"; "cleaned"; "checked"] combined_text
    then Some "Low"
    else Some "Medium".

Definition vehicle_system (combined_text : string) : string :=
  if contains "super cruise" combined_text
     || contains "driver assist" combined_text
  then "Driver Assistance"
  else if contains "heated" combined_text && contains "wheel" combined_text
  then "Comfort System"
  else if contains "horn" combined_text then "Electrical System"
  else if contains "wheel" combined_text
          && any_in ["trim"; "cover"; "plastic"] combined_text
  then "Interior Trim"
  else if contains "wheel" combined_text then "Steering System"
  else "Other".

Definition failure_mode (combined_text : string) : string :=
  if any_in ["coming apart"; "peeling"; "fraying"; "bubbling"] combined_text
  then "Material Degradation"
  else if any_in ["loose"; "protruding"] combined_text then "Assembly Issue"
  else if any_in ["inop"; "not working"; "malfunction"] combined_text
  then "Functional Failure"
  else if any_in ["dtc"; "code"; "light"; "message"] combined_text
  then "Electronic/Software Issue"
  else if any_in ["noise"; "clicking"; "rubbing"] combined_text
  then "NVH Issue"
  else "Unknown".

(** The urgency chain. [a and b and c] evaluates from the left and stops
    at the first false operand. *)
Definition repair_urgency (repair_age kilometers : value)
    (combined_text : string) : option string :=
  if eq_lit repair_age 0 then Some "Immediate"
  else if contains "safety" combined_text || contains "airbag" combined_text
  then Some "Safety Critical"
  else
    early ←
      (if truthy kilometers
       then near ← lt_lit kilometers 20000;
            if (near : bool) then lt_lit repair_age 6 else Some false
       else Some false);
    if (early : bool) then Some "Early Failure"
    else
      old ← gt_lit repair_age 24;
      if (old : bool) then Some "Long-term Issue" else Some "Normal".

Definition diagnostic_method (combined_text : string) : string :=
  if contains "tac case" combined_text
     || contains "technical assistance" combined_text
  then "Technical Assistance"
  else if contains "dtc" combined_text || contains "scan" combined_text
  then "Diagnostic Scan"
  else if contains "test" combined_text && contains "circuit" combined_text
  then "Circuit Testing"
  else if contains "prog" combined_text then "Software Reprogramming"
  else if contains "pra" combined_text then "Pre-authorization Required"
  else if contains "replace" combined_text then "Direct Replacement"
  else "Visual Inspection".

(** The numbers the rules read: [kilometers] and [parts_cost] after the
    string cells have been turned into floats. *)
Definition numeric_fields (row : gmap string value) : option (value * value) :=
  kilometers ← to_float_if_str (row_get row "KM" (VInt 0));
  total_cost ← to_float_if_str (row_get row "TOTALCOST" (VInt 0));
  labor_cost ← to_float_if_str (row_get row "LBRCOST" (VInt 0));
  parts_cost ←
    (if is_number total_cost && is_number labor_cost
     then sub total_cost labor_cost else Some (VInt 0));
  Some (kilometers, parts_cost).

Definition combined_text_of (row : gmap string value) : string :=
  let correction := strip (str (row_get row "CORRECTION_VERBATIM" (VStr ""))) in
  let customer := strip (str (row_get row "CUSTOMER_VERBATIM" (VStr ""))) in
  let global_labor_desc :=
    strip (str (row_get row "GLOBAL_LABOR_CODE_DESCRIPTION" (VStr ""))) in
  lower (correction +:+ " " +:+ customer +:+ " " +:+ global_labor_desc).

(** The body of the loop of [extract_advanced_tags] for one row: its five
    tags, or [None] when a statement raises. *)
Definition tag_row (row : gmap string value) : option Tags :=
  let repair_age := row_get row "REPAIR_AGE" (VInt 0) in
  '(kilometers, parts_cost) ← numeric_fields row;
  let combined_text := combined_text_of row in
  complexity ← repair_complexity parts_cost combined_text;
  let system := vehicle_system combined_text in
  let failure := failure_mode combined_text in
  urgency ← repair_urgency repair_age kilometers combined_text;
  let method := diagnostic_method combined_text in
  Some {| REPAIR_COMPLEXITY := complexity; VEHICLE_SYSTEM := system;
          FAILURE_MODE := failure; REPAIR_URGENCY := urgency;
          DIAGNOSTIC_METHOD := method |}.

(** [extract_advanced_tags]: the tags of every row, in order. *)
Definition extract_advanced_tags (rows : list (gmap string value))
  : option (list Tags) :=
  mapM tag_row rows.

End Rules.

(** ** LLM tags *)

(** The three columns [extract_tags] fills for a row. *)
Record LLMTags : Type := {
  ISSUES : string;
  COMPONENTS : string;
  ACTIONS : string
}.

(** The cells of a row without text. *)
Definition no_tags : LLMTags :=
  {| ISSUES := ""; COMPONENTS := ""; ACTIONS := "" |}.

(** The [taxonomy] literal of [extract_tags]. *)
Definition taxonomy_issues : list string :=
  [ "Material problems (peeling, delaminating, bubbling, sticky)";
    "Stitching failures";
    "Heating malfunctions";
    "Super Cruise/driver assistance failures";
    "Noise (clicking, rubbing)";
    "Horn malfunctions";
    "Electrical faults/DTCs";
    "Loose/protruding components";
    "Broken internal circuits";
    "Off-center alignment" ].

Definition taxonomy_components : list string :=
  [ "Steering wheel (main component)";
    "Heated module";
    "Super Cruise/driver assistance module";
    "Leather/material covering";
    "Trim/bezel";
    "Electrical harness/wiring";
    "Control buttons/switches";
    "Horn mechanism";
    "Airbag assembly";
    "BCM (Body Control Module)" ].

Definition taxonomy_actions : list string :=
  [ "Part replacement";
    "Pre-authorization (PRA)";
    "Circuit testing/diagnosis";
    "Module programming";
    "DTC clearing";
    "Torquing/alignment";
    "Road testing";
    "Technical assistance consultation";
    "Disassembly/reassembly";
    "System verification" ].

Definition taxonomy_str : string :=
  "Issue options: " +:+ join ", " taxonomy_issues +:+ AxionRay.nl
  +:+ "Component options: " +:+ join ", " taxonomy_components +:+ AxionRay.nl
  +:+ "Action options: " +:+ join ", " taxonomy_actions.

(** The prompt of [extract_tags] for the two texts of a row. *)
Definition tag_prompt (customer correction : string) : string :=
  let field name :=
    AxionRay.quoted name +:+ ": [" +:+ AxionRay.quoted "..." +:+ "]" in
  join AxionRay.nl [
    "";
    "You are an expert in vehicle repair classification.";
    "";
    "CLASSIFY ONLY USING THESE TAXONOMY OPTIONS:";
    taxonomy_str;
    "";
    "Analyze the following service record and extract:";
    "- issues";
    "- components";
    "- actions";
    "";
    "Text 1 (Customer Verbatim): " +:+ customer;
    "Text 2 (Correction Verbatim): " +:+ correction;
    "";
    "Return strictly in this JSON format:";
    "{";
    field "issues" +:+ ",";
    field "components" +:+ ",";
    field "actions";
    "}";
    "";
    "Rules:";
    "- Use only the provided taxonomy options (exact or closest match).";
    "- At least 1 issue, 1 component, and 1 action should be returned if identifiable.";
    "- If nothing is found, return an empty list [] for that field.";
    "" ].

(** The items of a list when all of them are strings. *)
Definition str_items (l : list value) : option (list string) :=
  mapM (fun v => match v with VStr s => Some s | _ => None end) l.

(** The characters of a string, which is what iterating over it yields. *)
Fixpoint chars (s : string) : list string :=
  match s with
  | EmptyString => []
  | String c s' => String c EmptyString :: chars s'
  end.

Section Extract.

Variable md5_hexdigest : string -> string.
Variable json_loads : string -> option value.
Variable post : nat -> string -> option Response.
Variable repr : value -> string.

(** The keys of a dict in the order in which iterating over it yields
    them. *)
Variable keys_in_order : gmap string value -> list string.

(** [sep.join(x)]: [x] is iterated and every item has to be a [str];
    a number, a [bool] or [None] is not iterable. *)
Definition join_values (sep : string) (x : value) : option string :=
  match x with
  | VList l => items ← str_items l; Some (join sep items)
  | VStr s => Some (join sep (chars s))
  | VDict d => Some (join sep (keys_in_order d))
  | _ => None
  end.

(** [", ".join(result[key]) if result[key] else ""] *)
Definition tag_cell (result : value) (key : string) : option string :=
  x ← getitem result key;
  if truthy x then join_values ", " x else Some "".

(** The three cells built from the value [_call_llm] returned. *)
Definition tag_cells (result : value) : option LLMTags :=
  issues ← tag_cell result "issues";
  components ← tag_cell result "components";
  actions ← tag_cell result "actions";
  Some {| ISSUES := issues; COMPONENTS := components; ACTIONS := actions |}.

(** The two texts of a row, [(correction, customer)]. *)
Definition row_texts (row : gmap string value) : string * string :=
  (strip (str repr (row_get row "CORRECTION_VERBATIM" (VStr ""))),
   strip (str repr (row_get row "CUSTOMER_VERBATIM" (VStr "")))).

(** [not correction and not customer] *)
Definition has_text (row : gmap string value) : bool :=
  negb (String.eqb (row_texts row).1 "" && String.eqb (row_texts row).2 "").

(** The prompt sent for a row that has text. *)
Definition row_prompt (row : gmap string value) : string :=
  tag_prompt (row_texts row).2 (row_texts row).1.

(** The loop of [extract_tags] over the rows, from the state of the tagger:
    the cells of the three new columns, one entry per row, or [None] when
    a statement raises, and the state afterwards. *)
Fixpoint extract_tags (rows : list (gmap string value)) (st : state)
  : option (list LLMTags) * state :=
  match rows with
  | [] => (Some [], st)
  | row :: rest =>
      if has_text row
      then
        match _call_llm md5_hexdigest json_loads post (row_prompt row) st with
        | (Some result, st') =>
            match tag_cells result with
            | Some cells =>
                let '(out, st'') := extract_tags rest st' in
                (cons cells <$> out, st'')
            | None => (None, st')
            end
        | (None, st') => (None, st')
        end
      else
        let '(out, st') := extract_tags rest st in
        (cons no_tags <$> out, st')
  end.

End Extract.

(** The row's [REPAIR_AGE] is 0, the field being 0 when the row has none. *)
Definition repair_age_is_zero (row : gmap string value) : Prop :=
  eq_lit (row_get row "REPAIR_AGE" (VInt 0)) 0 = true.


End LLMTagger.

(* ================================================================== *)
(** * The part of pandas the profiler and the cleaner use               *)
(* ================================================================== *)

Module Pandas.
Import Py.

(** A column (a [Series]) with its dtype: numbers, objects that are
    strings, booleans, or timestamps. A missing cell ([NaN], [None], [NaT])
    is [None]. Numbers are exact rationals: quantiles and comparisons are
    those of the real numbers the floats stand for. An object column that
    mixes strings with other objects is not represented. *)
Inductive column : Type :=
| NumCol (xs : list (option Q))
| ObjCol (xs : list (option string))
| BoolCol (xs : list bool)
| DateCol (xs : list (option Z)).

(** A [DataFrame]: its columns in order. *)
Definition table : Type := list (string * column).

(** [len(series)] *)
Definition len (c : column) : nat :=
  match c with
  | NumCol xs => length xs
  | ObjCol xs => length xs
  | BoolCol xs => length xs
  | DateCol xs => length xs
  end.

Definition is_none {A} (x : option A) : bool :=
  match x with None => true | Some _ => false end.

(** [series.isna()] *)
Definition isna (c : column) : list bool :=
  match c with
  | NumCol xs => map is_none xs
  | ObjCol xs => map is_none xs
  | BoolCol xs => map (fun _ => false) xs
  | DateCol xs => map is_none xs
  end.

(** [mask.sum()] *)
Definition count_true (mask : list bool) : nat :=
  length (filter (fun b => b = true) mask).

(** [series.dropna()] on the cells. *)
Definition dropna {A} (xs : list (option A)) : list A := omap id xs.

(** [series.fillna(v)] on the cells; filling with a missing value changes
    nothing. *)
Definition fillna {A} (xs : list (option A)) (v : option A) : list (option A) :=
  map (fun x => match x with Some _ => x | None => v end) xs.

(** [df[name]]: the column, or [None] for [KeyError]. *)
Fixpoint get_column (df : table) (name : string) : option column :=
  match df with
  | [] => None
  | (k, c) :: rest => if String.eqb k name then Some c else get_column rest name
  end.

(** [df[name] = c]: replaces the column in place or appends a new one. *)
Fixpoint set_column (df : table) (name : string) (c : column) : table :=
  match df with
  | [] => [(name, c)]
  | (k, c0) :: rest =>
      if String.eqb k name then (k, c) :: rest
      else (k, c0) :: set_column rest name c
  end.

(** The number of distinct values of a list, for a given equality test. *)
Fixpoint distinct {A} (eqb : A -> A -> bool) (l : list A) : list A :=
  match l with
  | [] => []
  | x :: rest =>
      let d := distinct eqb rest in
      if existsb (eqb x) rest then d else x :: d
  end.

(** [series.nunique()]: the distinct values that are not missing. *)
Definition nunique (c : column) : nat :=
  match c with
  | NumCol xs => length (distinct Qeq_bool (dropna xs))
  | ObjCol xs => length (distinct String.eqb (dropna xs))
  | BoolCol xs => length (distinct Bool.eqb xs)
  | DateCol xs => length (distinct Z.eqb (dropna xs))
  end.

(** ** Order statistics of a numeric column *)

Definition Qltb (a b : Q) : bool := negb (Qle_bool b a).

Fixpoint insert_sorted {A} (leb : A -> A -> bool) (x : A) (l : list A) : list A :=
  match l with
  | [] => [x]
  | y :: rest => if leb x y then x :: l else y :: insert_sorted leb x rest
  end.

Definition sort {A} (leb : A -> A -> bool) (l : list A) : list A :=
  foldr (insert_sorted leb) [] l.

(** [series.quantile(q)] with the default linear interpolation: the value at
    position [(n - 1) * q] of the sorted values that are not missing; [NaN]
    ([None]) when there is none. *)
Definition quantile (xs : list (option Q)) (q : Q) : option Q :=
  let vals := sort Qle_bool (dropna xs) in
  let h := (inject_Z (Z.of_nat (length vals - 1)) * q)%Q in
  a ← vals !! Z.to_nat (Qfloor h);
  b ← vals !! Z.to_nat (Qceiling h);
  Some (Qred (a + (h - inject_Z (Qfloor h)) * (b - a))%Q).

(** [series.median()]: the middle value, or the mean of the two middle
    values; [NaN] when every cell is missing. *)
Definition median (xs : list (option Q)) : option Q := quantile xs (1 # 2).

(** The IQR rule of the profiler and the cleaner:
    [(s < Q1 - 1.5 * IQR) | (s > Q3 + 1.5 * IQR)]. A comparison with [NaN]
    on either side is false. *)
Definition outlier_mask (xs : list (option Q)) : list bool :=
  match quantile xs (1 # 4), quantile xs (3 # 4) with
  | Some Q1, Some Q3 =>
      let IQR := (Q3 - Q1)%Q in
      map (fun x =>
             match x with
             | Some v => Qltb v (Q1 - (3 # 2) * IQR)%Q
                         || Qltb (Q3 + (3 # 2) * IQR)%Q v
             | None => false
             end) xs
  | _, _ => map (fun _ => false) xs
  end.

(** ** The mode of a column of strings *)

Definition occurrences (s : string) (l : list string) : nat :=
  length (filter (fun x => x = s) l).

(** [series.mode()]: the values that occur most often among the cells that
    are not missing, in sorted order. *)
Definition mode (xs : list (option string)) : list string :=
  let vals := dropna xs in
  let best := max_list (map (fun s => occurrences s vals) vals) in
  sort String.leb
    (distinct String.eqb
       (filter (fun s => occurrences s vals = best) vals)).

End Pandas.

(* ================================================================== *)
(** * profiler.py                                                       *)
(* ================================================================== *)

Module Profiler.
Import Py Pandas.

(** The keys of a profile dict that the primary key check and the cleaner
    read. A key that a branch never sets is [None]. The other keys (dtype,
    percentages, sample values, min, max, mean, std, word and category
    statistics, date range) are left out. *)
Record Profile : Type := {
  name : string;
  missing_count : nat;
  unique_count : nat;
  potential_issues : list string;
  column_type : option string;
  median : option (option Q);
  outlier_count : option nat;
  potential_primary_key : option bool
}.

Definition float_of_nat (n : nat) : float := LLMTagger.lit (Z.of_nat n).

(** The part of the profile built before the type is inferred. *)
Definition base_profile (col : string) (col_data : column) : Profile :=
  {| name := col;
     missing_count := count_true (isna col_data);
     unique_count := nunique col_data;
     potential_issues := [];
     column_type := None;
     median := None;
     outlier_count := None;
     potential_primary_key := None |}.

(** The numerical statistics, written by both numerical branches:
    [numeric_data] holds the values and [n] is the length the outlier
    percentage divides by. *)
Definition numerical_profile (profile : Profile) (numeric_data : list (option Q))
    (n : nat) : Profile :=
  let outlier_count := count_true (outlier_mask numeric_data) in
  let outlier_percentage :=
    (float_of_nat outlier_count / float_of_nat n * 100)%float in
  {| name := name profile;
     missing_count := missing_count profile;
     unique_count := unique_count profile;
     potential_issues :=
       if (5 <? outlier_percentage)%float
       then potential_issues profile ++ ["High outlier percentage"]
       else potential_issues profile;
     column_type := Some "numerical";
     median := Some (Pandas.median numeric_data);
     outlier_count := Some outlier_count;
     potential_primary_key := potential_primary_key profile |}.

Definition with_column_type (profile : Profile) (ty : string) : Profile :=
  {| name := name profile;
     missing_count := missing_count profile;
     unique_count := unique_count profile;
     potential_issues := potential_issues profile;
     column_type := Some ty;
     median := median profile;
     outlier_count := outlier_count profile;
     potential_primary_key := potential_primary_key profile |}.

Definition with_issue (profile : Profile) (issue : string) : Profile :=
  {| name := name profile;
     missing_count := missing_count profile;
     unique_count := unique_count profile;
     potential_issues := potential_issues profile ++ [issue];
     column_type := column_type profile;
     median := median profile;
     outlier_count := outlier_count profile;
     potential_primary_key := potential_primary_key profile |}.

(** The primary key check at the end of the loop body. *)
Definition with_primary_key (profile : Profile) (col_data : column) : Profile :=
  {| name := name profile;
     missing_count := missing_count profile;
     unique_count := unique_count profile;
     potential_issues := potential_issues profile;
     column_type := column_type profile;
     median := median profile;
     outlier_count := outlier_count profile;
     potential_primary_key :=
       Some ((unique_count profile =? len col_data)%nat
             && (missing_count profile =? 0)%nat) |}.

(** [col_data.str.len().mean() > 20] on the strings that are not missing. *)
Definition long_text (strs : list string) : bool :=
  (20 <? float_of_nat (sum_list (map String.length strs))
         / float_of_nat (length strs))%float.

(** [clean.nunique() < col_data.dropna().nunique()] for the stripped and
    lowered strings. *)
Definition inconsistent (strs : list string) : bool :=
  (length (distinct String.eqb (map (fun s => lower (strip s)) strs))
   <? length (distinct String.eqb strs))%nat.

Section Profile.

(** [pd.to_numeric] on the cells of an object column that are not missing:
    the numbers, or [None] when it raises. *)
Variable to_numeric : list string -> option (list Q).

(** Whether [pd.to_datetime(..., errors="raise")] returns on these cells. *)
Variable parses_as_dates : list string -> bool.

(** [pd.api.types.is_string_dtype] on an object column: true on every object
    column in some versions of pandas, false in others when a cell is
    missing. *)
Variable is_string_dtype : list (option string) -> bool.

(** The body of the loop of [profile_columns] for one column: the profile
    stored for it. A boolean column is not modelled ([None]). *)
Definition profile_column (col : string) (col_data : column) : option Profile :=
  let profile := base_profile col col_data in
  match col_data with
  | NumCol xs =>
      (* is_numeric_dtype *)
      Some (with_primary_key (numerical_profile profile xs (length xs)) col_data)
  | ObjCol xs =>
      (* dtype == "object" *)
      match to_numeric (dropna xs) with
      | Some numeric_data =>
          (* stored, then [continue]: the rest of the body is skipped *)
          Some (numerical_profile profile (map Some numeric_data)
                  (length numeric_data))
      | None =>
          let profile :=
            if is_string_dtype xs then
              if parses_as_dates (dropna xs)
              then with_column_type profile "date"
              else if long_text (dropna xs)
              then with_column_type profile "text"
              else
                let profile := with_column_type profile "categorical" in
                if inconsistent (dropna xs)
                then with_issue profile "Inconsistent capitalization or spacing"
                else profile
            else profile in
          Some (with_primary_key profile col_data)
      end
  | DateCol _ =>
      (* is_datetime64_any_dtype *)
      Some (with_primary_key (with_column_type profile "date") col_data)
  | BoolCol _ => None
  end.

(** [profile_columns]: one profile for each column, in the order of the
    columns. *)
Definition profile_columns (df_raw : table) : option (list (string * Profile)) :=
  mapM (fun '(col, col_data) =>
          profile ← profile_column col col_data; Some (col, profile)) df_raw.

End Profile.

(** ** Vocabulary of the properties *)

(** A stand-in for [pd.to_numeric] that accepts the strings of decimal
    digits. *)
Fixpoint digits_value (s : string) (acc : Z) : option Z :=
  match s with
  | EmptyString => Some acc
  | String c s' =>
      let n := nat_of_ascii c in
      if ((48 <=? n) && (n <=? 57))%nat
      then digits_value s' (10 * acc + Z.of_nat (n - 48))
      else None
  end.

Definition digits_to_numeric (cells : list string) : option (list Q) :=
  mapM (fun s => if String.eqb s "" then None
                 else inject_Z <$> digits_value s 0) cells.

(** A table whose only column holds identifiers stored as text. *)
Definition id_table : table :=
  [("ID", ObjCol [Some "1"; Some "2"; Some "3"])].

End Profiler.

(* ================================================================== *)
(** * cleaner.py                                                        *)
(* ================================================================== *)

Module Cleaner.
Import Py Pandas Profiler.

(** An entry of the insight log: the message with the values that fill its
    holes. *)
Inductive insight : Type :=
| Skipping (col : string)
    (* Skipping '{col}' - no column_type detected *)
| FilledMedian (missing : nat) (col : string) (median_val : option Q)
    (* Filled {missing_count} missing in '{col}' with median: {median_val} *)
| FilledMode (missing : nat) (col : string) (mode_val : string)
    (* Filled {missing_count} missing in '{col}' with mode: {mode_val} *)
| FilledEmpty (missing : nat) (col : string)
    (* Filled {missing_count} missing in '{col}' with empty string *)
| FilledMedianDate (missing : nat) (col : string) (median_date : option Z)
    (* Filled {missing_count} missing in '{col}' with median date: {median_date} *)
| Standardized (col : string)
    (* Standardized capitalization/spacing in '{col}' *)
| FailedDatetime (col : string)
    (* Failed to convert '{col}' to datetime *)
| FlaggedOutliers (col : string) (rows : nat).
    (* Flagged outliers in '{col}' using IQR: {outlier_mask.sum()} rows *)

(** The state of a [Cleaner] object. *)
Record Cleaner : Type := {
  df_clean : table;
  column_profiles : list (string * Profile);
  insights : list insight
}.

(** [Cleaner.__init__] *)
Definition new (df_raw : table) (column_profiles : list (string * Profile))
  : Cleaner :=
  {| df_clean := df_raw; column_profiles := column_profiles; insights := [] |}.

Definition has_type (profile : Profile) (ty : string) : bool :=
  match column_type profile with
  | Some t => String.eqb t ty
  | None => false
  end.

Definition has_issue (profile : Profile) (issue : string) : bool :=
  existsb (String.eqb issue) (potential_issues profile).

Section Clean.

(** [str.title] *)
Variable title : string -> string.

(** [pd.to_datetime] on a column that is not a datetime column: the
    converted column, or [None] when it raises. *)
Variable to_datetime_lib : column -> option column.

(** [series.median()] on a datetime column; [None] is [NaT]. *)
Variable median_date : list (option Z) -> option Z.

(** [pd.to_datetime(series)] *)
Definition to_datetime (c : column) : option column :=
  match c with
  | DateCol _ => Some c
  | _ => to_datetime_lib c
  end.

(** The imputation block, entered when [profile["missing_count"] > 0].
    Each branch is modelled on the dtype the profiler gives that type to;
    on another dtype the result is [None]. So is the date branch on an
    object column, where the filled column would mix strings and
    timestamps. *)
Definition impute (col : string) (profile : Profile)
    (st : table * list insight) : option (table * list insight) :=
  let '(df, log) := st in
  if (0 <? missing_count profile)%nat then
    if has_type profile "numerical" then
      c ← get_column df col;
      match c with
      | NumCol xs =>
          (* the default [df[col].median()] is computed before [get] *)
          let median_val := default (Pandas.median xs) (median profile) in
          Some (set_column df col (NumCol (fillna xs median_val)),
                log ++ [FilledMedian (missing_count profile) col median_val])
      | _ => None
      end
    else if has_type profile "categorical" then
      c ← get_column df col;
      match c with
      | ObjCol xs =>
          mode_val ← head (mode xs);
          Some (set_column df col (ObjCol (fillna xs (Some mode_val))),
                log ++ [FilledMode (missing_count profile) col mode_val])
      | _ => None
      end
    else if has_type profile "text" then
      c ← get_column df col;
      match c with
      | ObjCol xs =>
          Some (set_column df col (ObjCol (fillna xs (Some ""))),
                log ++ [FilledEmpty (missing_count profile) col])
      | _ => None
      end
    else if has_type profile "date" then
      c ← get_column df col;
      match c with
      | DateCol xs =>
          let df := set_column df (col +:+ "_MISSING") (BoolCol (isna c)) in
          let m := median_date xs in
          Some (set_column df col (DateCol (fillna xs m)),
                log ++ [FilledMedianDate (missing_count profile) col m])
      | _ => None
      end
    else Some st
  else Some st.

(** [series.astype(str).str.strip().str.title()] on an object column; a
    missing cell becomes the text of [NaN]. *)
Definition standardize (xs : list (option string)) : list (option string) :=
  map (fun x => Some (title (strip (default "nan" x)))) xs.

(** The normalization block. *)
Definition normalize (col : string) (profile : Profile)
    (st : table * list insight) : option (table * list insight) :=
  let '(df, log) := st in
  if has_type profile "categorical"
     && has_issue profile "Inconsistent capitalization or spacing"
  then
    c ← get_column df col;
    match c with
    | ObjCol xs =>
        Some (set_column df col (ObjCol (standardize xs)),
              log ++ [Standardized col])
    | _ => None
    end
  else Some st.

(** The date block: a failure inside the [try] is logged. *)
Definition convert_date (col : string) (profile : Profile)
    (st : table * list insight) : table * list insight :=
  let '(df, log) := st in
  if has_type profile "date" then
    match get_column df col ≫= to_datetime with
    | Some c => (set_column df col c, log)
    | None => (df, log ++ [FailedDatetime col])
    end
  else st.

(** The outlier block. *)
Definition flag_outliers (col : string) (profile : Profile)
    (st : table * list insight) : option (table * list insight) :=
  let '(df, log) := st in
  if has_type profile "numerical"
     && (0 <? default 0 (outlier_count profile))%nat
  then
    c ← get_column df col;
    match c with
    | NumCol xs =>
        let outlier_mask := outlier_mask xs in
        Some (set_column df (col +:+ "_OUTLIER") (BoolCol outlier_mask),
              log ++ [FlaggedOutliers col (count_true outlier_mask)])
    | _ => None
    end
  else Some st.

(** The body of the loop of [clean_data] for one profile. *)
Definition clean_column (col : string) (profile : Profile)
    (st : table * list insight) : option (table * list insight) :=
  match column_type profile with
  | None => Some (st.1, st.2 ++ [Skipping col])
  | Some _ =>
      st ← impute col profile st;
      st ← normalize col profile st;
      flag_outliers col profile (convert_date col profile st)
  end.

Fixpoint clean_columns (profiles : list (string * Profile))
    (st : table * list insight) : option (table * list insight) :=
  match profiles with
  | [] => Some st
  | (col, profile) :: rest =>
      st' ← clean_column col profile st;
      clean_columns rest st'
  end.

(** [clean_data]: the object afterwards; the method returns its [df_clean]
    and its [insights]. [None] when an exception leaves the method. *)
Definition clean_data (self : Cleaner) : option Cleaner :=
  '(df, log) ← clean_columns (column_profiles self)
                  (df_clean self, insights self);
  Some {| df_clean := df; column_profiles := column_profiles self;
          insights := log |}.

End Clean.

(** ** Vocabulary of the properties *)

(** The values of a numerical column after the imputation block. *)
Definition imputed (profile : Profile) (xs : list (option Q))
  : list (option Q) :=
  if (0 <? missing_count profile)%nat
  then fillna xs (default (Pandas.median xs) (median profile))
  else xs.

(** What the imputation block logs for a numerical column. *)
Definition imputation_log (profile : Profile) (col : string)
    (xs : list (option Q)) : list insight :=
  if (0 <? missing_count profile)%nat
  then [FilledMedian (missing_count profile) col
          (default (Pandas.median xs) (median profile))]
  else [].





(** The column of the specification's scenario and its profile. *)
Definition scenario_column : list (option Q) :=
  [Some 1%Q; Some 2%Q; Some 3%Q; Some 4%Q; Some 100%Q].

Definition scenario_profile : Profile :=
  {| name := "X"; missing_count := 0; unique_count := 5;
     potential_issues := ["High outlier percentage"];
     column_type := Some "numerical"; median := Some (Some 3%Q);
     outlier_count := Some 1%nat; potential_primary_key := Some true |}.

End Cleaner.

(* ================================================================== *)
(** * Properties                                                        *)
(* ================================================================== *)

Module PyFacts.
Import Py.

Lemma app_cons c s t : String c s +:+ t = String c (s +:+ t).
Proof. done. Qed.

Lemma app_nil_l t : "" +:+ t = t.
Proof. done. Qed.

Lemma app_nil_r s : s +:+ "" = s.
Proof. induction s as [|c s IH]; [done|]. by rewrite app_cons, IH. Qed.

Lemma app_assoc a b c : (a +:+ b) +:+ c = a +:+ (b +:+ c).
Proof.
  induction a as [|x a IH]; [done|]. by rewrite !app_cons, IH.
Qed.

Lemma length_app a b :
  String.length (a +:+ b) = (String.length a + String.length b)%nat.
Proof.
  induction a as [|x a IH]; [done|]. rewrite app_cons. simpl. by rewrite IH.
Qed.

Lemma prefix_app sep rest : String.prefix sep (sep +:+ rest) = true.
Proof.
  induction sep as [|c sep IH]; [by destruct rest|].
  rewrite app_cons. simpl. by destruct (ascii_dec c c).
Qed.

Lemma drop_chars_app sep rest :
  drop_chars (String.length sep) (sep +:+ rest) = rest.
Proof.
  induction sep as [|c sep IH]; [by destruct rest|]. by rewrite app_cons.
Qed.

Lemma prefix_drop sep : forall s,
  String.prefix sep s = true -> s = sep +:+ drop_chars (String.length sep) s.
Proof.
  induction sep as [|c sep IH]; intros s H; [by destruct s|].
  destruct s as [|x s]; [done|]. simpl in H.
  destruct (ascii_dec c x) as [->|]; [|done].
  cbn [String.length drop_chars]. rewrite app_cons. f_equal. by apply IH.
Qed.

Lemma split_first_eq sep s :
  split_first sep s =
  if String.prefix sep s
  then Some (EmptyString, drop_chars (String.length sep) s)
  else match s with
       | EmptyString => None
       | String c s' =>
           match split_first sep s' with
           | Some (a, b) => Some (String c a, b)
           | None => None
           end
       end.
Proof. by destruct s. Qed.

(** [split_first] cuts the string at an occurrence of the separator. *)
Lemma split_first_sound sep : forall s a b,
  split_first sep s = Some (a, b) -> s = a +:+ sep +:+ b.
Proof.
  induction s as [|c s IH]; intros a b H; rewrite split_first_eq in H.
  - destruct (String.prefix sep "") eqn:Hp; [|done].
    injection H as <- <-. by apply prefix_drop.
  - destruct (String.prefix sep (String c s)) eqn:Hp.
    + injection H as <- <-. by apply prefix_drop.
    + destruct (split_first sep s) as [[a' b']|]; [|done].
      injection H as <- <-. rewrite app_cons. f_equal. by apply IH.
Qed.

(** It finds the separator wherever it occurs. *)
Lemma split_first_complete sep b : forall a,
  is_Some (split_first sep (a +:+ sep +:+ b)).
Proof.
  induction a as [|c a IH]; rewrite split_first_eq.
  - rewrite app_nil_l. by rewrite prefix_app.
  - destruct (String.prefix sep _); [done|]. rewrite app_cons.
    destruct IH as [[a' b'] ->]. done.
Qed.

Lemma contains_iff sep s :
  contains sep s = true <-> exists a b, s = a +:+ sep +:+ b.
Proof.
  unfold contains. split.
  - destruct (split_first sep s) as [[a b]|] eqn:E; [|done].
    intros _. exists a, b. by apply split_first_sound.
  - intros (a & b & ->). by destruct (split_first_complete sep b a) as [? ->].
Qed.

Lemma contains_refl s : contains s s = true.
Proof. apply contains_iff. exists "", "". by rewrite app_nil_l, app_nil_r. Qed.

Lemma contains_app_l sep s t :
  contains sep s = true -> contains sep (s +:+ t) = true.
Proof.
  rewrite !contains_iff. intros (a & b & ->). exists a, (b +:+ t).
  by rewrite !app_assoc.
Qed.

Lemma contains_app_r sep s t :
  contains sep s = true -> contains sep (t +:+ s) = true.
Proof.
  rewrite !contains_iff. intros (a & b & ->). exists (t +:+ a), b.
  by rewrite !app_assoc.
Qed.

Lemma contains_join sep glue (parts : list string) part :
  part ∈ parts -> contains sep part = true ->
  contains sep (join glue parts) = true.
Proof.
  intros Hin Hc. induction parts as [|p rest IH]; [by apply elem_of_nil in Hin|].
  destruct rest as [|q rest].
  - apply elem_of_cons in Hin as [->|Hin]; [done|by apply elem_of_nil in Hin].
  - change (join glue (p :: q :: rest))
      with (p +:+ glue +:+ join glue (q :: rest)).
    apply elem_of_cons in Hin as [->|Hin]; [by apply contains_app_l|].
    apply contains_app_r, contains_app_r. by apply IH.
Qed.

(** A separator that starts with a character the text before it lacks is
    found at its place. *)
Lemma contains_char_cons c0 c s :
  contains (String c0 "") (String c s) = false ->
  c <> c0 /\ contains (String c0 "") s = false.
Proof.
  unfold contains. rewrite split_first_eq. simpl.
  destruct (ascii_dec c0 c) as [->|Hne].
  - by destruct s.
  - destruct (split_first (String c0 "") s) as [[a b]|]; [done|].
    split; [congruence|done].
Qed.

Lemma split_first_fresh c0 sep' rest : forall pre,
  contains (String c0 "") pre = false ->
  split_first (String c0 sep') (pre +:+ String c0 sep' +:+ rest)
  = Some (pre, rest).
Proof.
  induction pre as [|c pre IH]; intros H; rewrite split_first_eq.
  - change ("" +:+ String c0 sep' +:+ rest) with (String c0 sep' +:+ rest).
    by rewrite prefix_app, drop_chars_app.
  - apply contains_char_cons in H as [Hne H].
    change (String c pre +:+ String c0 sep' +:+ rest)
      with (String c (pre +:+ String c0 sep' +:+ rest)).
    cbn [String.prefix]. destruct (ascii_dec c0 c) as [->|_]; [done|].
    by rewrite IH.
Qed.

Lemma split_first_absent c0 sep' : forall s,
  contains (String c0 "") s = false ->
  split_first (String c0 sep') s = None.
Proof.
  induction s as [|c s IH]; intros H; rewrite split_first_eq; [done|].
  apply contains_char_cons in H as [Hne H].
  cbn [String.prefix]. destruct (ascii_dec c0 c) as [->|_]; [done|].
  by rewrite IH.
Qed.

Lemma split_first_length c0 sep' s a b :
  split_first (String c0 sep') s = Some (a, b) ->
  exists n, String.length s = S n.
Proof.
  intros H. apply split_first_sound in H as ->.
  rewrite !length_app. cbn [String.length].
  exists (String.length a + (String.length sep' + String.length b))%nat. lia.
Qed.

(** [s.split(sep)] when [sep] occurs once. *)
Lemma split_two c0 sep' s a b :
  split_first (String c0 sep') s = Some (a, b) ->
  split_first (String c0 sep') b = None ->
  split (String c0 sep') s = [a; b].
Proof.
  intros Ha Hb. unfold split.
  destruct (split_first_length _ _ _ _ _ Ha) as [n ->].
  cbn [split_fuel]. rewrite Ha. f_equal.
  destruct n; [done|]. cbn [split_fuel]. by rewrite Hb.
Qed.

(** [s.split(sep)[0]] when [sep] occurs. *)
Lemma split_head c0 sep' s a b :
  split_first (String c0 sep') s = Some (a, b) ->
  head (split (String c0 sep') s) = Some a.
Proof.
  intros Ha. unfold split.
  destruct (split_first_length _ _ _ _ _ Ha) as [n ->].
  cbn [split_fuel]. by rewrite Ha.
Qed.

(** [s.split(sep)] when [sep] does not occur. *)
Lemma split_none sep s :
  split_first sep s = None -> split sep s = [s].
Proof.
  intros H. unfold split. destruct (String.length s); [done|].
  cbn [split_fuel]. by rewrite H.
Qed.

(** No json fence starts in [body ``` post] when neither text has a
    backtick and [post] does not start with the word json. *)
Lemma no_fence_after post : forall body,
  contains "`" body = false -> contains "`" post = false ->
  String.prefix "json" post = false ->
  split_first "```json" (body +:+ "```" +:+ post) = None.
Proof.
  intros body Hb Hp Hj. induction body as [|c body IH].
  - rewrite app_nil_l.
    assert (H3 : String.prefix "```json" ("```" +:+ post) = false).
    { rewrite !app_cons, app_nil_l. exact Hj. }
    assert (H2 : String.prefix "```json" ("``" +:+ post) = false).
    { rewrite !app_cons, app_nil_l. destruct post as [|x post]; [done|].
      apply contains_char_cons in Hp as [Hne _]. cbn [String.prefix].
      destruct (ascii_dec "`" "`"); [|done].
      destruct (ascii_dec "`" "`"); [|done].
      by destruct (ascii_dec "`" x) as [<-|]. }
    assert (H1 : String.prefix "```json" ("`" +:+ post) = false).
    { rewrite !app_cons, app_nil_l. destruct post as [|x post]; [done|].
      apply contains_char_cons in Hp as [Hne _]. cbn [String.prefix].
      destruct (ascii_dec "`" "`"); [|done].
      by destruct (ascii_dec "`" x) as [<-|]. }
    rewrite split_first_eq, H3.
    change ("```" +:+ post) with (String "`" ("``" +:+ post)). cbv iota.
    rewrite split_first_eq, H2.
    change ("``" +:+ post) with (String "`" ("`" +:+ post)). cbv iota.
    rewrite split_first_eq, H1.
    change ("`" +:+ post) with (String "`" post). cbv iota.
    by rewrite (split_first_absent "`" "``json" post Hp).
  - apply contains_char_cons in Hb as [Hne Hb].
    rewrite app_cons, split_first_eq. cbn [String.prefix].
    destruct (ascii_dec "`" c) as [<-|_]; [done|].
    by rewrite (IH Hb).
Qed.

End PyFacts.

Module FenceFacts.
Import Py PyFacts.

(** X8. What [call_llm_api] hands to [json.loads]. With a json fence that
    is closed, it is the stripped text between the fence and the next
    triple backtick; with a json fence that is not closed, and with no
    fence at all, it is the whole content. The texts before and inside the
    fence are taken without backticks, so that the fence is the first. *)
Theorem fenced_json_extracted (pre body post : string) :
  contains "`" pre = false -> contains "`" body = false ->
  AxionRay.json_str_of (pre +:+ "```json" +:+ body +:+ "```" +:+ post)
    = strip body
  /\ AxionRay.json_str_of (pre +:+ "```json" +:+ body)
     = pre +:+ "```json" +:+ body
  /\ AxionRay.json_str_of pre = pre.
Proof.
  intros Hp Hb. unfold AxionRay.json_str_of. split; [|split].
  - rewrite (split_first_fresh "`" "``json" _ pre Hp).
    by rewrite (split_first_fresh "`" "``" post body Hb).
  - rewrite (split_first_fresh "`" "``json" _ pre Hp).
    by rewrite (split_first_absent "`" "``" body Hb).
  - by rewrite (split_first_absent "`" "``json" pre Hp).
Qed.

Lemma fenced_json_extracted_example :
  AxionRay.json_str_of ("Here: " +:+ "```json" +:+ " {} " +:+ "```" +:+ " done")
    = strip " {} "
  /\ AxionRay.json_str_of ("Here: " +:+ "```json" +:+ " {} ")
     = "Here: " +:+ "```json" +:+ " {} "
  /\ AxionRay.json_str_of "Here: " = "Here: ".
Proof.
  apply (fenced_json_extracted "Here: " " {} " " done"); reflexivity.
Defined.

(** X9. What [_call_llm] hands to [json.loads]. With one json fence it is
    the stripped text after the fence up to the next triple backtick, and
    up to the end of the content when the fence is not closed: unlike
    [call_llm_api], the cached tagger accepts an unclosed fence. With no
    backtick at all it is the whole content. *)
Theorem tagger_fenced_json_extracted (pre body post : string) :
  contains "`" pre = false -> contains "`" body = false ->
  contains "`" post = false -> String.prefix "json" post = false ->
  LLMTagger.json_str_of (pre +:+ "```json" +:+ body +:+ "```" +:+ post)
    = strip body
  /\ LLMTagger.json_str_of (pre +:+ "```json" +:+ body) = strip body
  /\ LLMTagger.json_str_of pre = pre.
Proof.
  intros Hp Hb Hpost Hj. unfold LLMTagger.json_str_of. split; [|split].
  - assert (Hc : contains "```json"
                   (pre +:+ "```json" +:+ body +:+ "```" +:+ post) = true)
      by (apply contains_iff; eauto).
    rewrite Hc.
    rewrite (split_two "`" "``json" _ pre (body +:+ "```" +:+ post)).
    + cbn [last default id]. unfold id.
      by rewrite (split_head "`" "``" _ body post
                    (split_first_fresh "`" "``" post body Hb)).
    + by apply split_first_fresh.
    + by apply no_fence_after.
  - assert (Hc : contains "```json" (pre +:+ "```json" +:+ body) = true)
      by (apply contains_iff; eauto).
    rewrite Hc.
    rewrite (split_two "`" "``json" _ pre body).
    + cbn [last default id]. unfold id.
      by rewrite (split_none "```" body (split_first_absent "`" "``" body Hb)).
    + by apply split_first_fresh.
    + by apply split_first_absent.
  - unfold contains. by rewrite (split_first_absent "`" "``json" pre Hp).
Qed.

Lemma tagger_fenced_json_extracted_example :
  LLMTagger.json_str_of ("Here: " +:+ "```json" +:+ " {} " +:+ "```" +:+ " done")
    = strip " {} "
  /\ LLMTagger.json_str_of ("Here: " +:+ "```json" +:+ " {} ") = strip " {} "
  /\ LLMTagger.json_str_of "Here: " = "Here: ".
Proof.
  apply (tagger_fenced_json_extracted "Here: " " {} " " done"); reflexivity.
Defined.

End FenceFacts.

Module PromptFacts.
Import Py PyFacts AxionRay.

Lemma prompt_line line complaint cause correction taxonomy parts :
  create_llm_prompt complaint cause correction taxonomy = join nl parts ->
  line ∈ parts ->
  contains line (create_llm_prompt complaint cause correction taxonomy) = true.
Proof.
  intros -> Hin. eapply contains_join; [exact Hin|apply contains_refl].
Qed.

(** X10. The prompt shows the service the whole record and the whole
    taxonomy: it contains the three lines with the complaint, the cause
    and the correction of the row, and every label of each of the five
    axes. *)
Theorem prompt_shows_record_and_taxonomy
    (complaint cause correction : string) (taxonomy : Taxonomy) :
  let prompt := create_llm_prompt complaint cause correction taxonomy in
  contains ("Complaint: " +:+ complaint) prompt = true
  /\ contains ("Cause: " +:+ cause) prompt = true
  /\ contains ("Correction: " +:+ correction) prompt = true
  /\ forall axis label,
       axis ∈ [Root_Cause; Symptom_Condition; Symptom_Component;
               Fix_Condition; Fix_Component] ->
       label ∈ axis taxonomy ->
       contains label prompt = true.
Proof.
  intros prompt. subst prompt.
  split; [|split; [|split]].
  - eapply prompt_line; [reflexivity|]. repeat constructor.
  - eapply prompt_line; [reflexivity|]. repeat constructor.
  - eapply prompt_line; [reflexivity|]. repeat constructor.
  - intros axis label Hax Hl.
    unfold create_llm_prompt. cbv zeta.
    eapply contains_join; [do 8 (apply elem_of_cons; right); by left|].
    repeat (apply elem_of_cons in Hax as [->|Hax];
            [eapply contains_join;
             [repeat constructor
             |apply contains_app_r; eapply contains_join;
              [exact Hl|apply contains_refl]]|]).
    by apply elem_of_nil in Hax.
Qed.

End PromptFacts.

Module AxionRayFacts.
Import Py Http AxionRay.

Lemma eq_str_true v s : eq_str v s = true -> v = VStr s.
Proof.
  destruct v; simpl; try discriminate.
  intros H. apply String.eqb_eq in H. by subst.
Qed.

Lemma in_strs_true v l : in_strs v l = true -> exists s, v = VStr s /\ s ∈ l.
Proof.
  unfold in_strs. rewrite existsb_exists. intros (s & Hin & Heq).
  exists s. split; [by apply eq_str_true | by apply list_elem_of_In].
Qed.

Lemma item_ok_allowed allowed item :
  item_ok allowed item = true -> allowed_label allowed item.
Proof.
  unfold item_ok. rewrite !orb_true_iff. intros [[H | H] | H].
  - apply in_strs_true in H as (s & -> & Hs). exists s. auto.
  - apply eq_str_true in H as ->. eexists. eauto.
  - apply eq_str_true in H as ->. eexists. split; [done | auto].
Qed.

Lemma sentinel_allowed allowed : allowed_label allowed (VStr NOT_MENTIONED).
Proof. eexists. eauto. Qed.

Lemma empty_allowed allowed : allowed_label allowed (VStr "").
Proof. eexists. split; [done | auto]. Qed.

Lemma repair_allowed allowed item : allowed_label allowed (repair allowed item).
Proof.
  unfold repair. destruct (item_ok allowed item) eqn:E.
  - by apply item_ok_allowed.
  - apply sentinel_allowed.
Qed.

(** [imul_confidence] only writes the confidence. *)
Lemma imul_confidence_other d k d' key :
  imul_confidence d k = Some d' -> key <> "confidence" ->
  d' !! key = d !! key.
Proof.
  unfold imul_confidence. intros H Hne.
  destruct (d !! "confidence") as [c|]; simpl in H; [|discriminate].
  destruct (mul_float c k) as [c'|]; simpl in H; [|discriminate].
  injection H as <-. by rewrite lookup_insert_ne.
Qed.

Lemma imul_confidence_conf d k d' :
  imul_confidence d k = Some d' ->
  d' !! "confidence" = d !! "confidence" ≫= fun c => mul_float c k.
Proof.
  unfold imul_confidence. intros H.
  destruct (d !! "confidence") as [c|]; simpl in *; [|discriminate].
  destruct (mul_float c k) as [c'|]; simpl in H; [|discriminate].
  injection H as <-. by rewrite lookup_insert_eq.
Qed.

Lemma bad_items_cons allowed item rest :
  bad_items allowed (item :: rest) =
  ((if item_ok allowed item then 0 else 1) + bad_items allowed rest)%nat.
Proof.
  unfold bad_items. rewrite filter_cons.
  destruct (item_ok allowed item); by case_decide.
Qed.

(** The inner loop appends the repaired items, leaves every key but the
    confidence alone, and multiplies the confidence once for each item it
    replaces. *)
Lemma validate_items_spec allowed items : forall acc d vl d',
  validate_items allowed items acc d = Some (vl, d') ->
  vl = acc ++ map (repair allowed) items
  /\ (forall key, key <> "confidence" -> d' !! key = d !! key)
  /\ d' !! "confidence" =
       Nat.iter (bad_items allowed items) (times 0.9) (d !! "confidence").
Proof.
  induction items as [|item rest IH]; intros acc d vl d' H; simpl in H.
  - injection H as <- <-. rewrite app_nil_r. auto.
  - rewrite bad_items_cons. unfold repair at 1. simpl map. fold (repair allowed).
    destruct (item_ok allowed item) eqn:E.
    + apply IH in H as (-> & Hk & Hc). rewrite <- app_assoc. auto.
    + destruct (imul_confidence d 0.9) as [d1|] eqn:E1; simpl in H;
        [|discriminate].
      apply IH in H as (-> & Hk & Hc). rewrite <- app_assoc.
      split; [done|]. split.
      * intros key Hne. rewrite Hk by done.
        by eapply imul_confidence_other.
      * rewrite Hc, (imul_confidence_conf _ _ _ E1). fold (times 0.9 (d !! "confidence")).
        change (1 + bad_items allowed rest)%nat
          with (S (bad_items allowed rest)).
        by rewrite Nat.iter_succ_r.
Qed.


Lemma pad3_length l : length (take 3 (pad3 l)) = 3%nat.
Proof.
  unfold pad3. rewrite length_take, length_app, length_replicate. lia.
Qed.

Lemma validated_list_length allowed field :
  length (validated_list allowed field) = 3%nat.
Proof.
  unfold validated_list.
  destruct field as [[]|]; try done. apply pad3_length.
Qed.

Lemma validated_list_allowed allowed field :
  Forall (allowed_label allowed) (validated_list allowed field).
Proof.
  assert (Hd : Forall (allowed_label allowed)
                 [VStr NOT_MENTIONED; VStr ""; VStr ""]).
  { repeat constructor; auto using sentinel_allowed, empty_allowed. }
  unfold validated_list. destruct field as [[]|]; try done.
  apply Forall_take. unfold pad3. apply Forall_app. split.
  - apply Forall_forall. intros x Hx. apply list_elem_of_fmap in Hx as (y & -> & _).
    apply repair_allowed.
  - apply Forall_replicate. apply empty_allowed.
Qed.

Lemma validate_field_spec taxonomy d key axis d' :
  validate_field taxonomy d (key, axis) = Some d' ->
  key <> "confidence" ->
  d' !! key = Some (VList (validated_list (axis taxonomy) (d !! key)))
  /\ (forall k, k <> key -> k <> "confidence" -> d' !! k = d !! k)
  /\ d' !! "confidence" =
       Nat.iter (bad_items (axis taxonomy) (items_of (d !! key)))
         (times 0.9) (d !! "confidence").
Proof.
  unfold validate_field. intros H Hne.
  assert (Hdef : forall f,
    (match f with Some (VList _) => False | _ => True end) ->
    Some (<[key := default_list]> d) = Some d' ->
    d' !! key = Some (VList (validated_list (axis taxonomy) f))
    /\ (forall k, k <> key -> k <> "confidence" -> d' !! k = d !! k)
    /\ d' !! "confidence" =
         Nat.iter (bad_items (axis taxonomy) (items_of f))
           (times 0.9) (d !! "confidence")).
  { intros f Hf [= <-]. rewrite lookup_insert_eq.
    split; [by destruct f as [[]|]|]. split.
    - intros k Hk _. by rewrite lookup_insert_ne.
    - rewrite lookup_insert_ne by done. by destruct f as [[]|]. }
  destruct (d !! key) as [v|] eqn:Ek; [|by apply Hdef].
  destruct v; try (by apply Hdef).
  destruct (validate_items (axis taxonomy) l [] d) as [[vl d1]|] eqn:Ev;
    simpl in H; [|discriminate].
  injection H as <-.
  apply validate_items_spec in Ev as (-> & Hk & Hc).
  rewrite lookup_insert_eq. split; [done|]. split.
  - intros k Hk1 Hk2. rewrite lookup_insert_ne by done. by apply Hk.
  - rewrite lookup_insert_ne by done. apply Hc.
Qed.

Lemma validate_fields_spec taxonomy fields : forall d d',
  validate_fields taxonomy fields d = Some d' ->
  NoDup fields.*1 -> "confidence" ∉ fields.*1 ->
  (forall key axis, (key, axis) ∈ fields ->
     d' !! key = Some (VList (validated_list (axis taxonomy) (d !! key))))
  /\ (forall k, k ∉ fields.*1 -> k <> "confidence" -> d' !! k = d !! k)
  /\ d' !! "confidence" =
       Nat.iter (total_bad taxonomy fields d) (times 0.9) (d !! "confidence").
Proof.
  induction fields as [|[key axis] rest IH]; intros d d' H Hnd Hc.
  - injection H as <-. split; [|done]. intros ?? Hin. by apply elem_of_nil in Hin.
  - cbn [validate_fields] in H.
    destruct (validate_field taxonomy d (key, axis)) as [d1|] eqn:E1;
      simpl in H; [|discriminate].
    rewrite fmap_cons in Hnd, Hc. simpl in Hnd, Hc.
    apply NoDup_cons in Hnd as [Hk Hnd]. apply not_elem_of_cons in Hc as [Hc1 Hc].
    apply validate_field_spec in E1 as (Hkey & Hoth & Hconf); [|done].
    apply IH in H as (Hkeys & Hoth' & Hconf'); [|done..].
    split; [|split].
    + intros k a Hin. rewrite elem_of_cons in Hin. destruct Hin as [Heq|Hin];
        [injection Heq as -> ->|].
      * rewrite Hoth' by done. done.
      * rewrite (Hkeys _ _ Hin). rewrite Hoth; [done| |].
        -- intros ->. apply Hk. apply list_elem_of_fmap. by exists (key, a).
        -- intros ->. apply Hc. apply list_elem_of_fmap. by exists ("confidence", a).
    + intros k Hk1 Hk2. rewrite fmap_cons in Hk1. simpl in Hk1.
      apply not_elem_of_cons in Hk1 as [? ?].
      rewrite Hoth' by done. by apply Hoth.
    + rewrite Hconf', Hconf. unfold total_bad. simpl.
      rewrite (Nat.add_comm (bad_items _ _)), Nat.iter_add.
      f_equal. f_equal. apply map_ext_in. intros [k a] Hin. simpl.
      rewrite Hoth; [done| |].
      * intros ->. apply Hk. apply list_elem_of_fmap. exists (key, a).
        split; [done|]. by apply list_elem_of_In.
      * intros ->. apply Hc. apply list_elem_of_fmap. exists ("confidence", a).
        split; [done|]. by apply list_elem_of_In.
Qed.

Lemma iter_times_float factor k c :
  Nat.iter k (times factor) (Some (VFloat c)) = Some (VFloat (scaled factor k c)).
Proof.
  induction k as [|k IH]; [done|].
  unfold scaled in *. rewrite !Nat.iter_succ, IH. done.
Qed.

Lemma imul_confidence_float d k c :
  d !! "confidence" = Some (VFloat c) ->
  exists d', imul_confidence d k = Some d'.
Proof. intros H. unfold imul_confidence. rewrite H. simpl. eauto. Qed.

Lemma validate_items_total allowed items : forall acc d c,
  d !! "confidence" = Some (VFloat c) ->
  exists vl d', validate_items allowed items acc d = Some (vl, d').
Proof.
  induction items as [|item rest IH]; intros acc d c Hc; simpl; [eauto|].
  destruct (item_ok allowed item); [by eapply IH|].
  destruct (imul_confidence_float d 0.9 c Hc) as [d1 E1]. rewrite E1. simpl.
  apply imul_confidence_conf in E1. rewrite Hc in E1. simpl in E1.
  by eapply IH.
Qed.

Lemma validate_field_total taxonomy d field c :
  d !! "confidence" = Some (VFloat c) ->
  exists d', validate_field taxonomy d field = Some d'.
Proof.
  intros Hc. destruct field as [key axis]. unfold validate_field.
  destruct (d !! key) as [[]|]; eauto.
  destruct (validate_items_total (axis taxonomy) l [] d c Hc) as (vl & d1 & E).
  rewrite E. simpl. eauto.
Qed.

Lemma validate_fields_total taxonomy fields : forall d c,
  NoDup fields.*1 -> "confidence" ∉ fields.*1 ->
  d !! "confidence" = Some (VFloat c) ->
  exists d', validate_fields taxonomy fields d = Some d'.
Proof.
  induction fields as [|[key axis] rest IH]; intros d c Hnd Hn Hc;
    cbn [validate_fields]; [eauto|].
  rewrite fmap_cons in Hnd, Hn. simpl in Hnd, Hn.
  apply NoDup_cons in Hnd as [Hk Hnd]. apply not_elem_of_cons in Hn as [Hn1 Hn].
  destruct (validate_field_total taxonomy d (key, axis) c Hc) as [d1 E1].
  rewrite E1. simpl.
  apply validate_field_spec in E1 as (_ & _ & Hc1); [|done].
  rewrite Hc, iter_times_float in Hc1. by eapply IH.
Qed.

Lemma list_fields_keys :
  NoDup list_fields.*1 /\ ("confidence" ∉ list_fields.*1)
  /\ ("root_cause" ∉ list_fields.*1).
Proof.
  split; [|split]; apply (bool_decide_unpack _); by vm_compute.
Qed.

(** The state after the root cause has been handled. *)
Lemma root_step taxonomy d d1 :
  (if root_bad taxonomy d
   then imul_confidence (<["root_cause" := VStr NOT_MENTIONED]> d) 0.8
   else Some d) = Some d1 ->
  (exists s, d1 !! "root_cause" = Some (VStr s)
             /\ (s ∈ Root_Cause taxonomy \/ s = NOT_MENTIONED))
  /\ (forall k, k <> "root_cause" -> k <> "confidence" -> d1 !! k = d !! k)
  /\ d1 !! "confidence" =
       (if root_bad taxonomy d then times 0.8 else id) (d !! "confidence").
Proof.
  unfold root_bad. intros H.
  destruct (negb _ && negb _) eqn:E.
  - split; [|split].
    + exists NOT_MENTIONED.
      rewrite (imul_confidence_other _ _ _ "root_cause" H) by done.
      rewrite lookup_insert_eq. auto.
    + intros k Hk1 Hk2. rewrite (imul_confidence_other _ _ _ k H) by done.
      by rewrite lookup_insert_ne.
    + rewrite (imul_confidence_conf _ _ _ H). by rewrite lookup_insert_ne.
  - injection H as <-. split; [|done].
    apply andb_false_iff in E. rewrite !negb_false_iff in E.
    destruct E as [E|E].
    + apply in_strs_true in E as (s & Hs & Hin). exists s.
      destruct (d !! "root_cause") as [v|]; simpl in Hs; [|discriminate].
      subst. auto.
    + apply eq_str_true in E. exists NOT_MENTIONED.
      destruct (d !! "root_cause") as [v|]; simpl in E; [|discriminate].
      subst. auto.
Qed.

Lemma total_bad_ext taxonomy fields d d1 :
  (forall k, k ∈ fields.*1 -> d1 !! k = d !! k) ->
  total_bad taxonomy fields d1 = total_bad taxonomy fields d.
Proof.
  intros H. unfold total_bad. f_equal. apply map_ext_in.
  intros [k a] Hin. simpl. rewrite H; [done|].
  apply list_elem_of_fmap. exists (k, a). split; [done|]. by apply list_elem_of_In.
Qed.

(** What [validate_llm_output] returns on a dict, when it returns. *)
Lemma validate_llm_output_spec taxonomy d v :
  validate_llm_output (VDict d) taxonomy = Some v ->
  (exists s, v !! "root_cause" = Some (VStr s)
             /\ (s ∈ Root_Cause taxonomy \/ s = NOT_MENTIONED))
  /\ (forall key axis, (key, axis) ∈ list_fields ->
        v !! key = Some (VList (validated_list (axis taxonomy) (d !! key))))
  /\ v !! "confidence" =
       Nat.iter (total_bad taxonomy list_fields d) (times 0.9)
         ((if root_bad taxonomy d then times 0.8 else id) (d !! "confidence")).
Proof.
  unfold validate_llm_output. fold (root_bad taxonomy d). intros H.
  destruct (if root_bad taxonomy d then _ else _) as [d1|] eqn:E1;
    [|discriminate].
  change (validate_fields taxonomy list_fields d1 = Some v) in H.
  destruct list_fields_keys as (Hnd & Hnc & Hnr).
  apply root_step in E1 as ((s & Hs & Hin) & Hoth & Hconf).
  apply validate_fields_spec in H as (Hkeys & Hoth' & Hconf'); [|done..].
  assert (Hsame : forall k, k ∈ list_fields.*1 -> d1 !! k = d !! k).
  { intros k Hk. apply Hoth; intros ->; contradiction. }
  split; [|split].
  - exists s. rewrite Hoth' by done. auto.
  - intros key axis Hin'. rewrite (Hkeys _ _ Hin'). rewrite Hsame; [done|].
    apply list_elem_of_fmap. by exists (key, axis).
  - rewrite Hconf', Hconf. by rewrite (total_bad_ext _ _ _ _ Hsame).
Qed.

Lemma validate_llm_output_total taxonomy d c :
  d !! "confidence" = Some (VFloat c) ->
  exists v, validate_llm_output (VDict d) taxonomy = Some v.
Proof.
  intros Hc. unfold validate_llm_output. fold (root_bad taxonomy d).
  destruct list_fields_keys as (Hnd & Hnc & Hnr).
  destruct (root_bad taxonomy d) eqn:E.
  - destruct (imul_confidence_float (<["root_cause" := VStr NOT_MENTIONED]> d)
                0.8 c) as [d1 E1]; [by rewrite lookup_insert_ne|].
    rewrite E1. apply imul_confidence_conf in E1.
    rewrite lookup_insert_ne, Hc in E1 by done. simpl in E1.
    change (exists v, validate_fields taxonomy list_fields d1 = Some v).
    by eapply validate_fields_total.
  - change (exists v, validate_fields taxonomy list_fields d = Some v).
    by eapply validate_fields_total.
Qed.

Lemma default_result_labels_ok taxonomy : labels_ok taxonomy default_result.
Proof.
  split.
  - exists NOT_MENTIONED. split; [by vm_compute | auto].
  - intros key axis Hin.
    exists [VStr NOT_MENTIONED; VStr ""; VStr ""].
    split; [|split; [done|]].
    + unfold list_fields in Hin.
      repeat (apply elem_of_cons in Hin as [[= -> _]|Hin]; [by vm_compute|]).
      by apply elem_of_nil in Hin.
    + repeat constructor; auto using sentinel_allowed, empty_allowed.
Qed.

Lemma validated_labels_ok taxonomy llm_output v :
  validate_llm_output llm_output taxonomy = Some v -> labels_ok taxonomy v.
Proof.
  destruct llm_output as [| | | | | |d]; try discriminate.
  intros H. apply validate_llm_output_spec in H as (Hroot & Hkeys & _).
  split; [done|]. intros key axis Hin. eexists. split; [by apply Hkeys|].
  split; [apply validated_list_length | apply validated_list_allowed].
Qed.

Section Row.
Variable json_loads : string -> option value.
Variable post : nat -> string -> option Response.

Lemma process_row_labels_ok n row taxonomy :
  labels_ok taxonomy (process_row json_loads post n row taxonomy).
Proof.
  unfold process_row.
  destruct (validate_llm_output _ taxonomy) as [v|] eqn:E.
  - by eapply validated_labels_ok.
  - apply default_result_labels_ok.
Qed.
End Row.

Lemma cell_of_allowed allowed v :
  allowed_label allowed v -> allowed_label allowed (cell_of v).
Proof.
  intros H. unfold cell_of. destruct (truthy v); [done|].
  apply sentinel_allowed.
Qed.

Lemma update_axis_three result key axis cells a b c :
  result !! key = Some (VList [a; b; c]) ->
  update_axis result key axis cells =
  Some (<[axis_column axis 2 := cell_of c]>
         (<[axis_column axis 1 := cell_of b]>
           (<[axis_column axis 0 := cell_of a]> cells))).
Proof. intros H. unfold update_axis. rewrite H. done. Qed.

Lemma three_elements {A} (l : list A) :
  length l = 3%nat -> exists a b c, l = [a; b; c].
Proof. destruct l as [|a [|b [|c [|]]]]; try discriminate. eauto. Qed.

Lemma update_row_labels taxonomy result cells :
  labels_ok taxonomy result ->
  update_row result = Some cells ->
  forall column axis, (column, axis) ∈ label_columns ->
    exists v, cells !! column = Some v /\ allowed_label (axis taxonomy) v.
Proof.
  intros [(s & Hs & Hroot) Hfields] H column axis Hin.
  assert (Hf : forall key ax, (key, ax) ∈ list_fields ->
    exists a b c, result !! key = Some (VList [a; b; c])
      /\ allowed_label (ax taxonomy) a /\ allowed_label (ax taxonomy) b
      /\ allowed_label (ax taxonomy) c).
  { intros key ax Hk. destruct (Hfields _ _ Hk) as (l & Hl & Hlen & Hall).
    destruct (three_elements l Hlen) as (a & b & c & ->).
    exists a, b, c. split; [done|].
    apply Forall_cons in Hall as [? Hall]. apply Forall_cons in Hall as [? Hall].
    apply Forall_cons in Hall as [? Hall]. done. }
  destruct (Hf "symptom_condition" Symptom_Condition) as (a1 & b1 & c1 & E1 & ? & ? & ?);
    [unfold list_fields; repeat constructor|].
  destruct (Hf "symptom_component" Symptom_Component) as (a2 & b2 & c2 & E2 & ? & ? & ?);
    [unfold list_fields; repeat constructor|].
  destruct (Hf "fix_condition" Fix_Condition) as (a3 & b3 & c3 & E3 & ? & ? & ?);
    [unfold list_fields; repeat constructor|].
  destruct (Hf "fix_component" Fix_Component) as (a4 & b4 & c4 & E4 & ? & ? & ?);
    [unfold list_fields; repeat constructor|].
  unfold update_row in H. rewrite Hs in H. cbn [mbind option_bind] in H.
  rewrite (update_axis_three _ _ _ _ _ _ _ E1) in H. cbn [mbind option_bind] in H.
  rewrite (update_axis_three _ _ _ _ _ _ _ E2) in H. cbn [mbind option_bind] in H.
  rewrite (update_axis_three _ _ _ _ _ _ _ E3) in H. cbn [mbind option_bind] in H.
  rewrite (update_axis_three _ _ _ _ _ _ _ E4) in H. cbn [mbind option_bind] in H.
  destruct (result !! "confidence") as [conf|]; [|discriminate].
  cbn [mbind option_bind] in H. injection H as <-.
  assert (Hr : allowed_label (Root_Cause taxonomy) (VStr s)).
  { exists s. split; [done|]. destruct Hroot; auto. }
  vm_compute axis_column.
  unfold label_columns in Hin. cbn in Hin.
  repeat (apply elem_of_cons in Hin as [Heq|Hin];
          [injection Heq as -> ->; eexists; split;
           [repeat (rewrite lookup_insert_ne by done); apply lookup_insert_eq
           |first [assumption | by apply cell_of_allowed]]|]).
  by apply elem_of_nil in Hin.
Qed.

Lemma update_row_returns taxonomy result :
  labels_ok taxonomy result ->
  is_Some (update_row result) <-> is_Some (result !! "confidence").
Proof.
  intros [(s & Hs & _) Hfields].
  assert (Hf : forall key ax, (key, ax) ∈ list_fields ->
    exists a b c, result !! key = Some (VList [a; b; c])).
  { intros key ax Hk. destruct (Hfields _ _ Hk) as (l & Hl & Hlen & _).
    destruct (three_elements l Hlen) as (a & b & c & ->). eauto. }
  destruct (Hf "symptom_condition" Symptom_Condition) as (a1 & b1 & c1 & E1);
    [unfold list_fields; repeat constructor|].
  destruct (Hf "symptom_component" Symptom_Component) as (a2 & b2 & c2 & E2);
    [unfold list_fields; repeat constructor|].
  destruct (Hf "fix_condition" Fix_Condition) as (a3 & b3 & c3 & E3);
    [unfold list_fields; repeat constructor|].
  destruct (Hf "fix_component" Fix_Component) as (a4 & b4 & c4 & E4);
    [unfold list_fields; repeat constructor|].
  unfold update_row. rewrite Hs. cbn [mbind option_bind].
  rewrite (update_axis_three _ _ _ _ _ _ _ E1). cbn [mbind option_bind].
  rewrite (update_axis_three _ _ _ _ _ _ _ E2). cbn [mbind option_bind].
  rewrite (update_axis_three _ _ _ _ _ _ _ E3). cbn [mbind option_bind].
  rewrite (update_axis_three _ _ _ _ _ _ _ E4). cbn [mbind option_bind].
  destruct (result !! "confidence"); cbn [mbind option_bind]; split;
    intros [? ?]; eauto; done.
Qed.

(** C1. For every row and every taxonomy axis, every label of the validated
    result, and every label cell written to the output for the row, is a
    member of the axis, the sentinel or the empty string. This holds for
    whatever the service answered: [validate_llm_output] only returns
    results with allowed labels, and [process_row] turns every answer it
    rejects into the default result. The cells of a row are written exactly
    when its result has a confidence. *)
Theorem validated_labels_within_taxonomy
    (json_loads : string -> option value)
    (post : nat -> string -> option Response)
    (n : nat) (row : Row) (taxonomy : Taxonomy) :
  let result := process_row json_loads post n row taxonomy in
  (forall llm_output validated,
     validate_llm_output llm_output taxonomy = Some validated ->
     labels_ok taxonomy validated)
  /\ labels_ok taxonomy result
  /\ (is_Some (update_row result) <-> is_Some (result !! "confidence"))
  /\ (forall cells, update_row result = Some cells ->
      forall column axis, (column, axis) ∈ label_columns ->
        exists v, cells !! column = Some v /\ allowed_label (axis taxonomy) v).
Proof.
  intros result. pose proof (process_row_labels_ok json_loads post n row taxonomy) as Hok.
  split; [intros ??; apply validated_labels_ok|].
  split; [done|]. split; [by eapply update_row_returns|].
  intros cells Hc. by eapply update_row_labels.
Qed.

(** The scenario, evaluated: the near match is replaced and the confidence
    0.95 becomes 0.95 * 0.9. *)
Example scenario_validated :
  exists v,
    validate_llm_output (VDict scenario_answer) scenario_taxonomy = Some v
    /\ v !! "symptom_component" =
         Some (VList [VStr "Not Mentioned"; VStr ""; VStr ""])
    /\ v !! "symptom_condition" =
         Some (VList [VStr "Noise (clicking, rubbing)"; VStr ""; VStr ""])
    /\ v !! "confidence" = Some (VFloat (0.95 * 0.9)%float).
Proof. eexists. split; [reflexivity|]. by vm_compute. Qed.

Lemma item_ok_sentinel allowed : item_ok allowed (VStr NOT_MENTIONED) = true.
Proof. unfold item_ok. simpl. by rewrite orb_true_r. Qed.

Lemma item_ok_empty allowed : item_ok allowed (VStr "") = true.
Proof. unfold item_ok. simpl. by rewrite !orb_true_r. Qed.

Lemma validate_field_default taxonomy d key axis :
  d !! key = Some default_list ->
  validate_field taxonomy d (key, axis) = Some d.
Proof.
  intros H. unfold validate_field. rewrite H. unfold default_list. simpl.
  rewrite item_ok_sentinel, item_ok_empty. simpl.
  by rewrite insert_id.
Qed.

(** Validation leaves the default result as it is. *)
Lemma validate_default taxonomy :
  validate_llm_output (VDict default_result) taxonomy = Some default_result.
Proof.
  unfold validate_llm_output.
  replace (default VNone (default_result !! "root_cause"))
    with (VStr NOT_MENTIONED) by reflexivity.
  replace (eq_str (VStr NOT_MENTIONED) NOT_MENTIONED) with true by reflexivity.
  rewrite andb_false_r.
  change (validate_fields taxonomy list_fields default_result = Some default_result).
  unfold list_fields. cbn [validate_fields].
  do 4 (rewrite validate_field_default by reflexivity; cbn [mbind option_bind]).
  done.
Qed.

Lemma failed_cells_written : update_row default_result = Some failed_cells.
Proof. by vm_compute. Qed.

Lemma failed_cells_low : low_confidence failed_cells = Some true.
Proof. reflexivity. Qed.

Section Pipeline.
Variable json_loads : string -> option value.
Variable post : nat -> string -> option Response.

Lemma call_fails_try n prompt :
  call_fails (fun s => json_loads (json_str_of s)) (post n prompt) ->
  call_llm_api_try json_loads post n prompt = None.
Proof.
  unfold call_llm_api_try. intros H.
  inversion H as [Hp | r Hr Hp | r Hr Hp | r Hr Hp | r c Hr Hc Hp | r s Hr Hj Hp];
    simpl; [done|..].
  - by rewrite Hr.
  - destruct (raise_for_status r); [|done]. simpl.
    unfold message_content. by rewrite Hr.
  - destruct (raise_for_status r); [|done]. simpl. by rewrite Hr.
  - destruct (raise_for_status r); [|done]. simpl. rewrite Hr. simpl.
    destruct c; try done. by destruct (Hc s).
  - destruct (raise_for_status r); [|done]. simpl. rewrite Hr. simpl. done.
Qed.

Lemma main_loop_app taxonomy before : forall n rest,
  main_loop json_loads post n (before ++ rest) taxonomy =
  out_b ← main_loop json_loads post n before taxonomy;
  out_r ← main_loop json_loads post (n + length before) rest taxonomy;
  Some (out_b ++ out_r).
Proof.
  induction before as [|row before IH]; intros n rest; simpl.
  - rewrite Nat.add_0_r. by destruct (main_loop _ _ _ _ _).
  - destruct (update_row _) as [cells|]; [|done]. simpl.
    rewrite IH. replace (n + S (length before))%nat
      with (S n + length before)%nat by lia.
    destruct (main_loop _ _ (S n) _ _) as [ob|]; [|done]. simpl.
    by destruct (main_loop _ _ _ _ _).
Qed.

(** The row of a failed call: the default result, and its cells. *)
Lemma failed_row n row taxonomy :
  call_fails (fun s => json_loads (json_str_of s))
    (post n (prompt_of row taxonomy)) ->
  call_llm_api json_loads post n (prompt_of row taxonomy) = VDict default_result
  /\ process_row json_loads post n row taxonomy = default_result
  /\ update_row (process_row json_loads post n row taxonomy) = Some failed_cells.
Proof.
  intros Hf. apply call_fails_try in Hf.
  assert (Hcall : call_llm_api json_loads post n (prompt_of row taxonomy)
                  = VDict default_result).
  { unfold call_llm_api. by rewrite Hf. }
  assert (Hrow : process_row json_loads post n row taxonomy = default_result).
  { unfold process_row. fold (prompt_of row taxonomy).
    by rewrite Hcall, validate_default. }
  split; [done|]. split; [done|]. rewrite Hrow. apply failed_cells_written.
Qed.

(** X3. When the [try] block of [call_llm_api] fails for a row (the request
    raises, the status check raises, the body is no JSON, a field on the way
    to the content is missing, or the content is no JSON), [call_llm_api]
    returns the default
    dict and so does [process_row]: the root cause is the sentinel, every
    list axis is the sentinel followed by two empty strings, and the
    confidence is 0.0. The loop body does not raise on it: the cells of the
    row are written, and the row counts as a low-confidence row. Inside any
    run the row contributes exactly these cells between the rows before it
    and the rows after it. *)
Theorem failed_call_falls_back (n : nat) (row : Row) (taxonomy : Taxonomy) :
  call_fails (fun s => json_loads (json_str_of s))
    (post n (prompt_of row taxonomy)) ->
  call_llm_api json_loads post n (prompt_of row taxonomy) = VDict default_result
  /\ process_row json_loads post n row taxonomy = default_result
  /\ default_result !! "root_cause" = Some (VStr "Not Mentioned")
  /\ (forall key axis, (key, axis) ∈ list_fields ->
      default_result !! key =
        Some (VList [VStr "Not Mentioned"; VStr ""; VStr ""]))
  /\ default_result !! "confidence" = Some (VFloat 0)
  /\ update_row (process_row json_loads post n row taxonomy) = Some failed_cells
  /\ low_confidence failed_cells = Some true
  /\ (forall before after,
      n = length before ->
      main_loop json_loads post 0 (before ++ row :: after) taxonomy =
      out_b ← main_loop json_loads post 0 before taxonomy;
      out_a ← main_loop json_loads post (S n) after taxonomy;
      Some (out_b ++ failed_cells :: out_a)).
Proof.
  intros Hf. destruct (failed_row n row taxonomy Hf) as (Hcall & Hrow & _).
  split; [done|]. split; [done|]. split; [reflexivity|]. split.
  { intros key axis Hin. unfold list_fields in Hin.
    repeat (apply elem_of_cons in Hin as [Heq|Hin];
            [injection Heq as -> _; reflexivity|]).
    by apply elem_of_nil in Hin. }
  split; [reflexivity|]. rewrite Hrow.
  split; [apply failed_cells_written|]. split; [apply failed_cells_low|].
  intros before after ->. rewrite main_loop_app. simpl.
  rewrite Hrow, failed_cells_written. simpl.
  destruct (main_loop _ _ 0 before _); [|done]. simpl.
  by destruct (main_loop _ _ _ after _).
Qed.

End Pipeline.

(** A network error on the only row of a run. *)
Lemma failed_call_network_error :
  let post := fun (_ : nat) (_ : string) => @None Response in
  let json_loads := fun _ : string => @None value in
  let row := {| Complaint := Some "wheel makes clicking noise";
                Cause := None; Correction := None |} in
  call_llm_api json_loads post 0 (prompt_of row scenario_taxonomy)
    = VDict default_result
  /\ process_row json_loads post 0 row scenario_taxonomy = default_result
  /\ default_result !! "root_cause" = Some (VStr "Not Mentioned")
  /\ (forall key axis, (key, axis) ∈ list_fields ->
      default_result !! key =
        Some (VList [VStr "Not Mentioned"; VStr ""; VStr ""]))
  /\ default_result !! "confidence" = Some (VFloat 0)
  /\ update_row (process_row json_loads post 0 row scenario_taxonomy)
       = Some failed_cells
  /\ low_confidence failed_cells = Some true
  /\ (forall before after,
      0%nat = length before ->
      main_loop json_loads post 0 (before ++ row :: after) scenario_taxonomy =
      out_b ← main_loop json_loads post 0 before scenario_taxonomy;
      out_a ← main_loop json_loads post 1 after scenario_taxonomy;
      Some (out_b ++ failed_cells :: out_a)).
Proof.
  intros post json_loads row.
  apply (failed_call_falls_back json_loads post 0 row scenario_taxonomy).
  apply network_error.
Defined.

Lemma failed_cells_flags k :
  mapM low_confidence (replicate k failed_cells) = Some (replicate k true).
Proof.
  induction k as [|k IH]; [done|].
  cbn [replicate mapM]. rewrite failed_cells_low, IH. done.
Qed.

Lemma failed_cells_counted k :
  low_confidence_count (replicate k failed_cells) = Some k.
Proof.
  unfold low_confidence_count. rewrite failed_cells_flags.
  cbn [mbind option_bind]. f_equal.
  induction k as [|k IH]; [done|].
  cbn [replicate]. rewrite filter_cons_True by done.
  cbn [length]. by rewrite IH.
Qed.

(** A run in which every call fails: every row is written and every row is
    reported. *)
Lemma all_calls_fail_all_reported
    (json_loads : string -> option value)
    (post : nat -> string -> option Response) taxonomy rows : forall n,
  (forall i row, rows !! i = Some row ->
     call_fails (fun s => json_loads (json_str_of s))
       (post (n + i)%nat (prompt_of row taxonomy))) ->
  main_loop json_loads post n rows taxonomy
    = Some (replicate (length rows) failed_cells)
  /\ low_confidence_count (replicate (length rows) failed_cells)
     = Some (length rows).
Proof.
  intros n H. split; [|apply failed_cells_counted].
  revert n H. induction rows as [|row rows IH]; intros n H; [done|].
  simpl. destruct (failed_row json_loads post n row taxonomy)
    as (_ & _ & Hu).
  { specialize (H 0%nat row eq_refl). by rewrite Nat.add_0_r in H. }
  rewrite Hu. simpl. rewrite IH; [done|].
  intros i r Hi. replace (S n + i)%nat with (n + S i)%nat by lia.
  by apply H.
Qed.

(** An answer that parses, has allowed labels and no confidence key is no
    failure of the call: validation returns it, and the main loop then
    raises on [result["confidence"]], which nothing catches. *)
Example answer_without_confidence_aborts :
  let answer := VDict (list_to_map [("root_cause", VStr "Not Mentioned")]) in
  let json_loads := fun _ : string => Some answer in
  let body :=
    VDict (list_to_map [("choices", VList [VDict (list_to_map
      [("message", VDict (list_to_map [("content", VStr "{}")]))])])]) in
  let post := fun (_ : nat) (_ : string) =>
    Some {| raise_for_status := Some tt; json := Some body |} in
  let row := {| Complaint := Some "wheel makes clicking noise";
                Cause := None; Correction := None |} in
  process_row json_loads post 0 row scenario_taxonomy !! "confidence" = None
  /\ update_row (process_row json_loads post 0 row scenario_taxonomy) = None
  /\ main_loop json_loads post 0 [row] scenario_taxonomy = None.
Proof. by vm_compute. Qed.

Lemma in_strs_elem s l : s ∈ l -> in_strs (VStr s) l = true.
Proof.
  intros H. unfold in_strs. apply existsb_exists. exists s.
  split; [by apply list_elem_of_In | apply String.eqb_refl].
Qed.

Lemma allowed_item_ok allowed v : allowed_label allowed v -> item_ok allowed v = true.
Proof.
  intros (s & -> & [H | [-> | ->]]); unfold item_ok.
  - by rewrite in_strs_elem.
  - simpl. by rewrite orb_true_r.
  - simpl. by rewrite !orb_true_r.
Qed.

Lemma bad_items_none allowed items :
  Forall (allowed_label allowed) items -> bad_items allowed items = 0%nat.
Proof.
  induction 1 as [|item rest H _ IH]; [done|].
  by rewrite bad_items_cons, (allowed_item_ok _ _ H), IH.
Qed.

Lemma repair_allowed_id allowed items :
  Forall (allowed_label allowed) items -> map (repair allowed) items = items.
Proof.
  induction 1 as [|item rest H _ IH]; [done|]. simpl.
  unfold repair at 1. by rewrite (allowed_item_ok _ _ H), IH.
Qed.

(** The inner loop on a list without a replaced item: it returns, and the
    dict is as before, whatever its confidence is. *)
Lemma validate_items_clean allowed items : forall acc d,
  bad_items allowed items = 0%nat ->
  validate_items allowed items acc d = Some (acc ++ map (repair allowed) items, d).
Proof.
  induction items as [|item rest IH]; intros acc d H; simpl.
  - by rewrite app_nil_r.
  - rewrite bad_items_cons in H. unfold repair at 1.
    destruct (item_ok allowed item); [|discriminate].
    rewrite IH by done. by rewrite <- app_assoc.
Qed.

(** The inner loop on a list with a replaced item and no confidence to
    scale: it raises. *)
Lemma validate_items_no_confidence allowed items : forall acc d,
  d !! "confidence" = None -> bad_items allowed items <> 0%nat ->
  validate_items allowed items acc d = None.
Proof.
  induction items as [|item rest IH]; intros acc d Hc H; simpl; [done|].
  rewrite bad_items_cons in H.
  destruct (item_ok allowed item).
  - by apply IH.
  - unfold imul_confidence. by rewrite Hc.
Qed.

Lemma validate_field_fixed taxonomy d key axis l :
  d !! key = Some (VList l) -> length l = 3%nat ->
  Forall (allowed_label (axis taxonomy)) l ->
  validate_field taxonomy d (key, axis) = Some d.
Proof.
  intros Hk Hlen Hall. unfold validate_field. rewrite Hk.
  rewrite validate_items_clean by by apply bad_items_none.
  cbn [mbind option_bind app]. rewrite repair_allowed_id by done.
  unfold pad3. rewrite Hlen. cbn [replicate Nat.sub]. rewrite app_nil_r.
  rewrite take_ge by lia. by rewrite insert_id.
Qed.

Lemma validate_fields_fixed taxonomy fields d :
  (forall key axis, (key, axis) ∈ fields ->
     exists l, d !! key = Some (VList l) /\ length l = 3%nat
               /\ Forall (allowed_label (axis taxonomy)) l) ->
  validate_fields taxonomy fields d = Some d.
Proof.
  induction fields as [|[key axis] rest IH]; intros H; [done|].
  cbn [validate_fields].
  destruct (H key axis) as (l & Hl & Hlen & Hall); [by left|].
  rewrite (validate_field_fixed _ _ _ _ _ Hl Hlen Hall).
  cbn [mbind option_bind]. apply IH. intros k a Hin. apply H. by right.
Qed.

Lemma labels_ok_fixed taxonomy d :
  labels_ok taxonomy d -> validate_llm_output (VDict d) taxonomy = Some d.
Proof.
  intros [(s & Hs & Hroot) Hfields]. unfold validate_llm_output.
  fold (root_bad taxonomy d).
  assert (Hno : root_bad taxonomy d = false).
  { unfold root_bad. rewrite Hs. simpl. destruct Hroot as [Hin | ->].
    - by rewrite in_strs_elem.
    - simpl. by rewrite andb_false_r. }
  rewrite Hno. change (validate_fields taxonomy list_fields d = Some d).
  by apply validate_fields_fixed.
Qed.

(** X1. Validation is idempotent: a result it returned is returned
    unchanged when validated again, with the same labels and the same
    confidence. So is every answer whose labels are allowed already
    ([labels_ok_fixed]), whatever its confidence. *)
Theorem validation_idempotent
    (taxonomy : Taxonomy) (llm_output : value) (d : gmap string value) :
  validate_llm_output llm_output taxonomy = Some d ->
  validate_llm_output (VDict d) taxonomy = Some d.
Proof. intros H. apply labels_ok_fixed. by eapply validated_labels_ok. Qed.

Lemma validation_idempotent_default :
  validate_llm_output (VDict default_result) scenario_taxonomy
  = Some default_result.
Proof.
  apply (validation_idempotent scenario_taxonomy (VDict default_result)).
  apply validate_default.
Defined.

(** ** The keys of a validated answer *)

Lemma imul_confidence_present d k d' :
  imul_confidence d k = Some d' -> is_Some (d' !! "confidence").
Proof.
  unfold imul_confidence. intros H.
  destruct (d !! "confidence") as [c|]; simpl in H; [|discriminate].
  destruct (mul_float c k) as [c'|]; simpl in H; [|discriminate].
  injection H as <-. rewrite lookup_insert_eq. eauto.
Qed.

Lemma validate_items_present allowed items : forall acc d vl d',
  validate_items allowed items acc d = Some (vl, d') ->
  is_Some (d !! "confidence") -> is_Some (d' !! "confidence").
Proof.
  induction items as [|item rest IH]; intros acc d vl d' H Hc; simpl in H.
  - by injection H as _ <-.
  - destruct (item_ok allowed item); [by eapply IH|].
    destruct (imul_confidence d 0.9) as [d1|] eqn:E1; simpl in H;
      [|discriminate].
    eapply IH; [done|]. by eapply imul_confidence_present.
Qed.

Lemma validate_field_present taxonomy d key axis d' :
  validate_field taxonomy d (key, axis) = Some d' ->
  key <> "confidence" ->
  is_Some (d !! "confidence") -> is_Some (d' !! "confidence").
Proof.
  unfold validate_field. intros H Hne Hc.
  assert (Hdef : Some (<[key := default_list]> d) = Some d' ->
                 is_Some (d' !! "confidence")).
  { intros [= <-]. by rewrite lookup_insert_ne. }
  destruct (d !! key) as [v|]; [|by apply Hdef].
  destruct v; try (by apply Hdef).
  destruct (validate_items (axis taxonomy) l [] d) as [[vl d1]|] eqn:Ev;
    simpl in H; [|discriminate].
  injection H as <-. rewrite lookup_insert_ne by done.
  by eapply validate_items_present.
Qed.

Lemma validate_fields_present taxonomy fields : forall d d',
  validate_fields taxonomy fields d = Some d' ->
  "confidence" ∉ fields.*1 ->
  is_Some (d !! "confidence") -> is_Some (d' !! "confidence").
Proof.
  induction fields as [|[key axis] rest IH]; intros d d' H Hn Hc.
  - by injection H as <-.
  - cbn [validate_fields] in H.
    destruct (validate_field taxonomy d (key, axis)) as [d1|] eqn:E1;
      [|discriminate].
    cbn [mbind option_bind] in H.
    rewrite fmap_cons in Hn. apply not_elem_of_cons in Hn as [Hn1 Hn].
    eapply IH; [done..|]. by eapply validate_field_present.
Qed.

(** X2. Validation never drops a key of the answer: every key the answer
    had is still there, the five label keys are there in any case, and a
    key validation does not know keeps its value. *)
Theorem validation_keeps_keys
    (taxonomy : Taxonomy) (d v : gmap string value) :
  validate_llm_output (VDict d) taxonomy = Some v ->
  (forall k, is_Some (d !! k) -> is_Some (v !! k))
  /\ (forall k, k ∉ written_keys -> v !! k = d !! k)
  /\ (forall k, k ∈ written_keys -> k <> "confidence" -> is_Some (v !! k)).
Proof.
  intros H.
  destruct (validate_llm_output_spec _ _ _ H) as ((s & Hs & _) & Hkeys & _).
  unfold validate_llm_output in H. fold (root_bad taxonomy d) in H.
  destruct (if root_bad taxonomy d then _ else _) as [d1|] eqn:E1;
    [|discriminate].
  change (validate_fields taxonomy list_fields d1 = Some v) in H.
  destruct list_fields_keys as (Hnd & Hnc & Hnr).
  pose proof (validate_fields_present _ _ _ _ H Hnc) as Hpres.
  destruct (validate_fields_spec _ _ _ _ H Hnd Hnc) as (_ & Hoth' & _).
  assert (Hconf1 : is_Some (d !! "confidence") -> is_Some (d1 !! "confidence")).
  { intros Hc. destruct (root_bad taxonomy d).
    - by eapply imul_confidence_present.
    - by injection E1 as <-. }
  apply root_step in E1 as (_ & Hoth & _).
  assert (Hlabel : forall k, k ∈ written_keys -> k <> "confidence" ->
                             is_Some (v !! k)).
  { intros k Hk Hne. unfold written_keys in Hk.
    apply elem_of_cons in Hk as [->|Hk]; [by rewrite Hs|].
    apply elem_of_cons in Hk as [->|Hk];
      [rewrite (Hkeys _ Symptom_Condition); [done|repeat constructor]|].
    apply elem_of_cons in Hk as [->|Hk];
      [rewrite (Hkeys _ Symptom_Component); [done|repeat constructor]|].
    apply elem_of_cons in Hk as [->|Hk];
      [rewrite (Hkeys _ Fix_Condition); [done|repeat constructor]|].
    apply elem_of_cons in Hk as [->|Hk];
      [rewrite (Hkeys _ Fix_Component); [done|repeat constructor]|].
    apply elem_of_cons in Hk as [->|Hk]; [done|]. by apply elem_of_nil in Hk. }
  assert (Hother : forall k, k ∉ written_keys -> v !! k = d !! k).
  { intros k Hk. unfold written_keys in Hk.
    rewrite Hoth'.
    - apply Hoth; intros ->; apply Hk; repeat constructor.
    - intros Hin. apply Hk. unfold list_fields in Hin. cbn in Hin.
      repeat (apply elem_of_cons in Hin as [->|Hin]; [repeat constructor|]).
      by apply elem_of_nil in Hin.
    - intros ->. apply Hk. repeat constructor. }
  split; [|done].
  intros k Hk. destruct (decide (k ∈ written_keys)) as [Hin|Hnin].
  - destruct (decide (k = "confidence")) as [->|Hne]; [|by apply Hlabel].
    by apply Hpres, Hconf1.
  - by rewrite Hother.
Qed.

Lemma validation_keeps_keys_scenario :
  (forall k, is_Some ((<["note" := VStr "extra"]> scenario_answer) !! k) ->
             is_Some ((<["note" := VStr "extra"]>
                       (<["symptom_component" :=
                            VList [VStr "Not Mentioned"; VStr ""; VStr ""]]>
                       (<["symptom_condition" :=
                            VList [VStr "Noise (clicking, rubbing)"; VStr "";
                                   VStr ""]]>
                       (<["fix_condition" := VList [VStr ""; VStr ""; VStr ""]]>
                       (<["fix_component" := VList [VStr ""; VStr ""; VStr ""]]>
                       (<["confidence" := VFloat (0.95 * 0.9)]>
                          scenario_answer)))))) !! k))
  /\ (forall k, k ∉ written_keys ->
        (<["note" := VStr "extra"]>
           (<["symptom_component" :=
                VList [VStr "Not Mentioned"; VStr ""; VStr ""]]>
           (<["symptom_condition" :=
                VList [VStr "Noise (clicking, rubbing)"; VStr ""; VStr ""]]>
           (<["fix_condition" := VList [VStr ""; VStr ""; VStr ""]]>
           (<["fix_component" := VList [VStr ""; VStr ""; VStr ""]]>
           (<["confidence" := VFloat (0.95 * 0.9)]> scenario_answer))))))
          !! k
        = (<["note" := VStr "extra"]> scenario_answer) !! k)
  /\ (forall k, k ∈ written_keys -> k <> "confidence" ->
        is_Some ((<["note" := VStr "extra"]>
           (<["symptom_component" :=
                VList [VStr "Not Mentioned"; VStr ""; VStr ""]]>
           (<["symptom_condition" :=
                VList [VStr "Noise (clicking, rubbing)"; VStr ""; VStr ""]]>
           (<["fix_condition" := VList [VStr ""; VStr ""; VStr ""]]>
           (<["fix_component" := VList [VStr ""; VStr ""; VStr ""]]>
           (<["confidence" := VFloat (0.95 * 0.9)]> scenario_answer))))))
          !! k)).
Proof.
  apply (validation_keeps_keys scenario_taxonomy
           (<["note" := VStr "extra"]> scenario_answer)).
  by vm_compute.
Defined.

(** ** Answers without a confidence *)

Lemma validate_field_clean taxonomy d key axis :
  bad_items (axis taxonomy) (items_of (d !! key)) = 0%nat ->
  is_Some (validate_field taxonomy d (key, axis)).
Proof.
  unfold validate_field. intros H.
  destruct (d !! key) as [v|]; [|done].
  destruct v; try done. simpl in H.
  by rewrite (validate_items_clean _ _ _ _ H).
Qed.

Lemma total_bad_cons taxonomy key axis rest d :
  total_bad taxonomy ((key, axis) :: rest) d =
  (bad_items (axis taxonomy) (items_of (d !! key))
   + total_bad taxonomy rest d)%nat.
Proof. done. Qed.

Lemma total_bad_step taxonomy key axis rest d d1 :
  validate_field taxonomy d (key, axis) = Some d1 ->
  NoDup (key :: rest.*1) -> "confidence" ∉ key :: rest.*1 ->
  total_bad taxonomy rest d1 = total_bad taxonomy rest d.
Proof.
  intros E1 Hnd Hnc.
  apply NoDup_cons in Hnd as [Hk _].
  apply not_elem_of_cons in Hnc as [Hc Hnc].
  destruct (validate_field_spec _ _ _ _ _ E1) as (_ & Hoth & _); [done|].
  apply total_bad_ext. intros k Hin. apply Hoth; intros ->; contradiction.
Qed.

Lemma validate_fields_clean taxonomy fields : forall d,
  NoDup fields.*1 -> "confidence" ∉ fields.*1 ->
  total_bad taxonomy fields d = 0%nat ->
  is_Some (validate_fields taxonomy fields d).
Proof.
  induction fields as [|[key axis] rest IH]; intros d Hnd Hnc H; [done|].
  rewrite fmap_cons in Hnd, Hnc. cbn [fst] in Hnd, Hnc.
  rewrite total_bad_cons in H.
  cbn [validate_fields].
  destruct (validate_field_clean taxonomy d key axis) as [d1 E1]; [lia|].
  rewrite E1. cbn [mbind option_bind].
  apply IH.
  - by apply NoDup_cons in Hnd as [_ ?].
  - by apply not_elem_of_cons in Hnc as [_ ?].
  - rewrite (total_bad_step _ _ _ _ _ _ E1 Hnd Hnc). lia.
Qed.

Lemma validate_fields_no_confidence taxonomy fields : forall d,
  NoDup fields.*1 -> "confidence" ∉ fields.*1 ->
  d !! "confidence" = None ->
  total_bad taxonomy fields d <> 0%nat ->
  validate_fields taxonomy fields d = None.
Proof.
  induction fields as [|[key axis] rest IH]; intros d Hnd Hnc Hc H; [done|].
  rewrite fmap_cons in Hnd, Hnc. cbn [fst] in Hnd, Hnc.
  rewrite total_bad_cons in H.
  cbn [validate_fields].
  destruct (validate_field taxonomy d (key, axis)) as [d1|] eqn:E1; [|done].
  cbn [mbind option_bind].
  assert (Hkc : key <> "confidence")
    by (by apply not_elem_of_cons in Hnc as [? _]).
  destruct (decide (bad_items (axis taxonomy) (items_of (d !! key)) = 0%nat))
    as [Hz|Hnz].
  - apply IH.
    + by apply NoDup_cons in Hnd as [_ ?].
    + by apply not_elem_of_cons in Hnc as [_ ?].
    + destruct (validate_field_spec _ _ _ _ _ E1 Hkc) as (_ & _ & Hconf).
      by rewrite Hconf, Hz, Hc.
    + rewrite (total_bad_step _ _ _ _ _ _ E1 Hnd Hnc). lia.
  - exfalso. unfold validate_field in E1.
    destruct (d !! key) as [v|]; [|done].
    destruct v; try done. simpl in Hnz.
    by rewrite (validate_items_no_confidence _ _ _ _ Hc Hnz) in E1.
Qed.

Lemma validate_no_confidence taxonomy d :
  d !! "confidence" = None ->
  if root_bad taxonomy d || negb (total_bad taxonomy list_fields d =? 0)%nat
  then validate_llm_output (VDict d) taxonomy = None
  else exists v, validate_llm_output (VDict d) taxonomy = Some v
                 /\ v !! "confidence" = None.
Proof.
  intros Hc. destruct list_fields_keys as (Hnd & Hnc & Hnr).
  destruct (root_bad taxonomy d) eqn:Hr; cbn [orb].
  - unfold validate_llm_output. fold (root_bad taxonomy d). rewrite Hr.
    unfold imul_confidence. rewrite lookup_insert_ne by done. by rewrite Hc.
  - destruct (total_bad taxonomy list_fields d =? 0)%nat eqn:Ht; cbn [negb].
    + apply Nat.eqb_eq in Ht.
      destruct (validate_fields_clean taxonomy list_fields d Hnd Hnc Ht)
        as [v Hv].
      assert (Hval : validate_llm_output (VDict d) taxonomy = Some v).
      { unfold validate_llm_output. fold (root_bad taxonomy d).
        by rewrite Hr. }
      exists v. split; [done|].
      destruct (validate_llm_output_spec _ _ _ Hval) as (_ & _ & ->).
      by rewrite Hr, Ht, Hc.
    + apply Nat.eqb_neq in Ht.
      unfold validate_llm_output. fold (root_bad taxonomy d). rewrite Hr.
      by apply validate_fields_no_confidence.
Qed.

Section Answers.
Variable json_loads : string -> option value.
Variable post : nat -> string -> option Response.

(** X16. An answer that has no confidence key. When a label has to be
    replaced, the multiplication raises inside validation, the row gets the
    default result and its cells are those of a failed call. When no label
    has to be replaced, validation returns the answer without a confidence,
    the subscript of the main loop raises, and the run ends without any
    output. *)
Theorem answer_without_confidence
    (n : nat) (row : Row) (taxonomy : Taxonomy) (d : gmap string value) :
  call_llm_api_try json_loads post n (prompt_of row taxonomy) = Some (VDict d) ->
  d !! "confidence" = None ->
  if root_bad taxonomy d || negb (total_bad taxonomy list_fields d =? 0)%nat
  then process_row json_loads post n row taxonomy = default_result
       /\ update_row (process_row json_loads post n row taxonomy)
          = Some failed_cells
  else update_row (process_row json_loads post n row taxonomy) = None
       /\ forall before after, n = length before ->
            main_loop json_loads post 0 (before ++ row :: after) taxonomy
            = None.
Proof.
  intros Hcall Hc.
  pose proof (validate_no_confidence taxonomy d Hc) as Hv.
  assert (Hp : process_row json_loads post n row taxonomy =
               match validate_llm_output (VDict d) taxonomy with
               | Some validated => validated
               | None => default_result
               end).
  { unfold process_row, call_llm_api. fold (prompt_of row taxonomy).
    by rewrite Hcall. }
  destruct (root_bad taxonomy d || _).
  - rewrite Hp, Hv. split; [done|]. apply failed_cells_written.
  - destruct Hv as (v & Hv & Hvc). rewrite Hv in Hp.
    assert (Hu : update_row (process_row json_loads post n row taxonomy)
                 = None).
    { rewrite Hp. apply eq_None_not_Some.
      rewrite (update_row_returns taxonomy);
        [|by eapply validated_labels_ok].
      rewrite Hvc. by intros [? ?]. }
    split; [done|].
    intros before after ->. rewrite main_loop_app.
    destruct (main_loop json_loads post 0 before taxonomy); [|done].
    cbn [mbind option_bind main_loop]. simpl Nat.add. by rewrite Hu.
Qed.

(** X4. An answer that parses to something that is no JSON object (a list,
    a string, a number, [null]) is handled like a failed call: validation
    raises on its [copy], the row gets the default result, and the cells of
    a failed call are written. *)
Theorem non_object_answer_falls_back
    (n : nat) (row : Row) (taxonomy : Taxonomy) (answer : value) :
  call_llm_api_try json_loads post n (prompt_of row taxonomy) = Some answer ->
  (forall d, answer <> VDict d) ->
  validate_llm_output answer taxonomy = None
  /\ process_row json_loads post n row taxonomy = default_result
  /\ update_row (process_row json_loads post n row taxonomy)
     = Some failed_cells
  /\ low_confidence failed_cells = Some true.
Proof.
  intros Hcall Hnd.
  assert (Hv : validate_llm_output answer taxonomy = None).
  { destruct answer; try done. by destruct (Hnd d). }
  assert (Hp : process_row json_loads post n row taxonomy = default_result).
  { unfold process_row, call_llm_api. fold (prompt_of row taxonomy).
    by rewrite Hcall, Hv. }
  rewrite Hp. split; [done|]. split; [done|].
  split; [apply failed_cells_written | apply failed_cells_low].
Qed.

End Answers.

Lemma answer_without_confidence_scenario :
  let answer := VDict (list_to_map [("root_cause", VStr "Not Mentioned")]) in
  let json_loads := fun _ : string => Some answer in
  let body :=
    VDict (list_to_map [("choices", VList [VDict (list_to_map
      [("message", VDict (list_to_map [("content", VStr "{}")]))])])]) in
  let post := fun (_ : nat) (_ : string) =>
    Some {| raise_for_status := Some tt; json := Some body |} in
  let row := {| Complaint := Some "wheel makes clicking noise";
                Cause := None; Correction := None |} in
  update_row (process_row json_loads post 0 row scenario_taxonomy) = None
  /\ forall before after, 0%nat = length before ->
       main_loop json_loads post 0 (before ++ row :: after) scenario_taxonomy
       = None.
Proof.
  intros answer json_loads body post row.
  exact (answer_without_confidence json_loads post 0 row scenario_taxonomy
           (list_to_map [("root_cause", VStr "Not Mentioned")])
           eq_refl eq_refl).
Defined.

Lemma non_object_answer_scenario :
  let answer := VList [VStr "Wear"] in
  let json_loads := fun _ : string => Some answer in
  let body :=
    VDict (list_to_map [("choices", VList [VDict (list_to_map
      [("message", VDict (list_to_map [("content", VStr "[]")]))])])]) in
  let post := fun (_ : nat) (_ : string) =>
    Some {| raise_for_status := Some tt; json := Some body |} in
  let row := {| Complaint := Some "wheel makes clicking noise";
                Cause := None; Correction := None |} in
  validate_llm_output answer scenario_taxonomy = None
  /\ process_row json_loads post 0 row scenario_taxonomy = default_result
  /\ update_row (process_row json_loads post 0 row scenario_taxonomy)
     = Some failed_cells
  /\ low_confidence failed_cells = Some true.
Proof.
  intros answer json_loads body post row.
  apply (non_object_answer_falls_back json_loads post 0 row scenario_taxonomy
           answer).
  - reflexivity.
  - intros d. discriminate.
Defined.

(** ** The root cause *)

Lemma root_bad_false taxonomy d :
  root_bad taxonomy d = false <->
  exists s, d !! "root_cause" = Some (VStr s)
            /\ (s ∈ Root_Cause taxonomy \/ s = NOT_MENTIONED).
Proof.
  unfold root_bad. split.
  - intros H. apply andb_false_iff in H as [H|H]; apply negb_false_iff in H.
    + apply in_strs_true in H as (s & Hv & Hin). exists s. split; [|by left].
      destruct (d !! "root_cause") as [v|]; simpl in Hv; by subst.
    + apply eq_str_true in H. exists NOT_MENTIONED. split; [|by right].
      destruct (d !! "root_cause") as [v|]; simpl in H; by subst.
  - intros (s & -> & [Hin| ->]); simpl.
    + by rewrite (in_strs_elem _ _ Hin).
    + apply andb_false_iff. right. done.
Qed.

(** X5. The single-label rule. The root cause of the answer is kept exactly
    when it is a string that is a member of the Root Cause axis or the
    sentinel; anything else (a label outside the axis, a missing key, a
    value that is no string) is replaced by the sentinel. *)
Theorem root_cause_kept_or_replaced
    (taxonomy : Taxonomy) (d v : gmap string value) :
  validate_llm_output (VDict d) taxonomy = Some v ->
  v !! "root_cause" =
    (if root_bad taxonomy d then Some (VStr NOT_MENTIONED)
     else d !! "root_cause")
  /\ (root_bad taxonomy d = false <->
      exists s, d !! "root_cause" = Some (VStr s)
                /\ (s ∈ Root_Cause taxonomy \/ s = NOT_MENTIONED)).
Proof.
  intros H. split; [|apply root_bad_false].
  unfold validate_llm_output in H. fold (root_bad taxonomy d) in H.
  destruct (if root_bad taxonomy d then _ else _) as [d1|] eqn:E1;
    [|discriminate].
  change (validate_fields taxonomy list_fields d1 = Some v) in H.
  destruct list_fields_keys as (Hnd & Hnc & Hnr).
  destruct (validate_fields_spec _ _ _ _ H Hnd Hnc) as (_ & Hoth & _).
  rewrite Hoth by done.
  destruct (root_bad taxonomy d).
  - rewrite (imul_confidence_other _ _ _ "root_cause" E1) by done.
    apply lookup_insert_eq.
  - by injection E1 as <-.
Qed.

Lemma root_cause_replaced_scenario :
  (<["root_cause" := VStr "Not Mentioned"]>
     (<["symptom_component" := VList [VStr "Not Mentioned"; VStr ""; VStr ""]]>
     (<["symptom_condition" := VList [VStr "Not Mentioned"; VStr ""; VStr ""]]>
     (<["fix_condition" := VList [VStr "Not Mentioned"; VStr ""; VStr ""]]>
     (<["fix_component" := VList [VStr "Not Mentioned"; VStr ""; VStr ""]]>
     (<["confidence" := VFloat (0.5 * 0.8)]> ∅))))) : gmap string value)
    !! "root_cause" =
    (if root_bad scenario_taxonomy
          (<["root_cause" := VStr "wear"]> (<["confidence" := VFloat 0.5]> ∅))
     then Some (VStr NOT_MENTIONED)
     else (<["root_cause" := VStr "wear"]> (<["confidence" := VFloat 0.5]> ∅)
           : gmap string value) !! "root_cause")
  /\ (root_bad scenario_taxonomy
        (<["root_cause" := VStr "wear"]> (<["confidence" := VFloat 0.5]> ∅))
      = false <->
      exists s, (<["root_cause" := VStr "wear"]>
                   (<["confidence" := VFloat 0.5]> ∅) : gmap string value)
                  !! "root_cause" = Some (VStr s)
                /\ (s ∈ Root_Cause scenario_taxonomy \/ s = NOT_MENTIONED)).
Proof.
  apply (root_cause_kept_or_replaced scenario_taxonomy
           (<["root_cause" := VStr "wear"]> (<["confidence" := VFloat 0.5]> ∅))).
  by vm_compute.
Defined.

(** ** The cells of a row *)

Lemma cell_of_not_empty allowed v :
  allowed_label allowed v ->
  exists s, cell_of v = VStr s /\ s <> ""
            /\ (s ∈ allowed \/ s = NOT_MENTIONED).
Proof.
  intros (s & -> & H). unfold cell_of. simpl.
  destruct (String.eqb_spec s "") as [->|Hne]; simpl.
  - exists NOT_MENTIONED. split; [done|]. split; [done|]. by right.
  - exists s. split; [done|]. split; [done|].
    destruct H as [?|[?|?]]; auto. contradiction.
Qed.

Lemma update_row_explicit taxonomy result cells :
  labels_ok taxonomy result ->
  update_row result = Some cells ->
  exists s conf a1 b1 c1 a2 b2 c2 a3 b3 c3 a4 b4 c4,
    result !! "root_cause" = Some (VStr s)
    /\ result !! "confidence" = Some conf
    /\ Forall (allowed_label (Symptom_Condition taxonomy)) [a1; b1; c1]
    /\ Forall (allowed_label (Symptom_Component taxonomy)) [a2; b2; c2]
    /\ Forall (allowed_label (Fix_Condition taxonomy)) [a3; b3; c3]
    /\ Forall (allowed_label (Fix_Component taxonomy)) [a4; b4; c4]
    /\ cells =
       <["Confidence" := conf]>
       (<["Fix Component 3" := cell_of c4]>
       (<["Fix Component 2" := cell_of b4]>
       (<["Fix Component 1" := cell_of a4]>
       (<["Fix Condition 3" := cell_of c3]>
       (<["Fix Condition 2" := cell_of b3]>
       (<["Fix Condition 1" := cell_of a3]>
       (<["Symptom Component 3" := cell_of c2]>
       (<["Symptom Component 2" := cell_of b2]>
       (<["Symptom Component 1" := cell_of a2]>
       (<["Symptom Condition 3" := cell_of c1]>
       (<["Symptom Condition 2" := cell_of b1]>
       (<["Symptom Condition 1" := cell_of a1]>
       (<["Root Cause" := VStr s]> ∅))))))))))))).
Proof.
  intros [(s & Hs & Hroot) Hfields] H.
  assert (Hf : forall key ax, (key, ax) ∈ list_fields ->
    exists a b c, result !! key = Some (VList [a; b; c])
      /\ Forall (allowed_label (ax taxonomy)) [a; b; c]).
  { intros key ax Hk. destruct (Hfields _ _ Hk) as (l & Hl & Hlen & Hall).
    destruct (three_elements l Hlen) as (a & b & c & ->). eauto. }
  destruct (Hf "symptom_condition" Symptom_Condition) as (a1 & b1 & c1 & E1 & ?);
    [unfold list_fields; repeat constructor|].
  destruct (Hf "symptom_component" Symptom_Component) as (a2 & b2 & c2 & E2 & ?);
    [unfold list_fields; repeat constructor|].
  destruct (Hf "fix_condition" Fix_Condition) as (a3 & b3 & c3 & E3 & ?);
    [unfold list_fields; repeat constructor|].
  destruct (Hf "fix_component" Fix_Component) as (a4 & b4 & c4 & E4 & ?);
    [unfold list_fields; repeat constructor|].
  unfold update_row in H. rewrite Hs in H. cbn [mbind option_bind] in H.
  rewrite (update_axis_three _ _ _ _ _ _ _ E1) in H. cbn [mbind option_bind] in H.
  rewrite (update_axis_three _ _ _ _ _ _ _ E2) in H. cbn [mbind option_bind] in H.
  rewrite (update_axis_three _ _ _ _ _ _ _ E3) in H. cbn [mbind option_bind] in H.
  rewrite (update_axis_three _ _ _ _ _ _ _ E4) in H. cbn [mbind option_bind] in H.
  destruct (result !! "confidence") as [conf|]; [|discriminate].
  cbn [mbind option_bind] in H. injection H as <-.
  exists s, conf, a1, b1, c1, a2, b2, c2, a3, b3, c3, a4, b4, c4.
  repeat (split; [done|]). reflexivity.
Qed.

Lemma update_row_columns taxonomy result cells :
  labels_ok taxonomy result ->
  update_row result = Some cells ->
  (forall column, is_Some (cells !! column) <-> column ∈ required_columns)
  /\ cells !! "Root Cause" = result !! "root_cause"
  /\ cells !! "Confidence" = result !! "confidence"
  /\ (forall column axis, (column, axis) ∈ label_columns ->
        column <> "Root Cause" ->
        exists s, cells !! column = Some (VStr s) /\ s <> ""
                  /\ (s ∈ axis taxonomy \/ s = NOT_MENTIONED)).
Proof.
  intros Hok H.
  destruct (update_row_explicit _ _ _ Hok H)
    as (s & conf & a1 & b1 & c1 & a2 & b2 & c2 & a3 & b3 & c3 & a4 & b4 & c4
        & Hs & Hc & H1 & H2 & H3 & H4 & ->).
  split; [|split; [|split]].
  - intros column. unfold required_columns. split.
    + intros Hsome.
      repeat (apply lookup_insert_is_Some in Hsome as [<-|[_ Hsome]];
              [repeat constructor|]).
      rewrite lookup_empty in Hsome. by destruct Hsome.
    + intros Hin.
      repeat (apply elem_of_cons in Hin as [->|Hin];
              [repeat (rewrite lookup_insert_ne by done);
               rewrite lookup_insert_eq; eauto|]).
      by apply elem_of_nil in Hin.
  - repeat (rewrite lookup_insert_ne by done). by rewrite lookup_insert_eq.
  - by rewrite lookup_insert_eq.
  - intros column axis Hin Hne.
    repeat match goal with
           | HF : Forall _ (_ :: _) |- _ =>
               apply Forall_cons in HF as [?%cell_of_not_empty HF]
           end.
    unfold label_columns in Hin. cbn in Hin. vm_compute axis_column in Hin.
    apply elem_of_cons in Hin as [Heq|Hin];
      [injection Heq as -> ->; contradiction|].
    repeat (apply elem_of_cons in Hin as [Heq|Hin];
            [injection Heq as -> ->;
             repeat (rewrite lookup_insert_ne by done);
             rewrite lookup_insert_eq;
             match goal with
             | HC : exists s, cell_of ?v = _ /\ _ |- context [cell_of ?v] =>
                 destruct HC as (s' & -> & ? & ?); by exists s'
             end|]).
    by apply elem_of_nil in Hin.
Qed.

Section Loop.
Variable json_loads : string -> option value.
Variable post : nat -> string -> option Response.

Lemma main_loop_lookup taxonomy rows : forall n out,
  main_loop json_loads post n rows taxonomy = Some out ->
  length out = length rows
  /\ forall i row, rows !! i = Some row ->
       update_row (process_row json_loads post (n + i) row taxonomy)
       = out !! i.
Proof.
  induction rows as [|row rest IH]; intros n out H.
  - injection H as <-. split; [done|]. intros i row Hi. by destruct i.
  - cbn [main_loop] in H.
    destruct (update_row (process_row json_loads post n row taxonomy))
      as [cells|] eqn:Ec; [|discriminate].
    cbn [mbind option_bind] in H.
    destruct (main_loop json_loads post (S n) rest taxonomy) as [out'|] eqn:Er;
      [|discriminate].
    cbn [mbind option_bind] in H. injection H as <-.
    destruct (IH _ _ Er) as [Hlen Hrows].
    split; [simpl; by rewrite Hlen|].
    intros [|i] r Hi.
    + injection Hi as <-. by rewrite Nat.add_0_r.
    + simpl in Hi. change ((cells :: out') !! S i) with (out' !! i).
      rewrite <- (Hrows _ _ Hi).
      by replace (n + S i)%nat with (S n + i)%nat by lia.
Qed.

Lemma main_loop_returns taxonomy rows : forall n,
  is_Some (main_loop json_loads post n rows taxonomy) <->
  forall i row, rows !! i = Some row ->
    is_Some (process_row json_loads post (n + i) row taxonomy !! "confidence").
Proof.
  induction rows as [|row rest IH]; intros n.
  - split; [|done]. intros _ i row Hi. by destruct i.
  - cbn [main_loop].
    pose proof (update_row_returns taxonomy _
                  (process_row_labels_ok json_loads post n row taxonomy))
      as Hu.
    split.
    + intros H.
      destruct (update_row (process_row json_loads post n row taxonomy))
        as [cells|] eqn:Ec; [|by destruct H].
      cbn [mbind option_bind] in H.
      destruct (main_loop json_loads post (S n) rest taxonomy) as [out'|] eqn:Er;
        [|by destruct H].
      intros [|i] r Hi.
      * injection Hi as <-. rewrite Nat.add_0_r. apply Hu. eauto.
      * simpl in Hi. replace (n + S i)%nat with (S n + i)%nat by lia.
        apply (proj1 (IH (S n))); [|done]. rewrite Er. eauto.
    + intros H.
      destruct (proj2 Hu) as [cells Ec].
      { specialize (H 0%nat row eq_refl). by rewrite Nat.add_0_r in H. }
      rewrite Ec. cbn [mbind option_bind].
      destruct (proj2 (IH (S n))) as [out' Er].
      { intros i r Hi. specialize (H (S i) r Hi).
        by replace (n + S i)%nat with (S n + i)%nat in H by lia. }
      rewrite Er. eauto.
Qed.

(** X6. The run completes, that is the loop reaches the line that saves the
    CSV, exactly when the result of every row has a confidence key. Every
    row whose call failed has one; only an answer of the service that lacks
    it can end the run. *)
Theorem run_completes_iff_confidences
    (rows : list Row) (taxonomy : Taxonomy) :
  is_Some (main_loop json_loads post 0 rows taxonomy) <->
  forall i row, rows !! i = Some row ->
    is_Some (process_row json_loads post i row taxonomy !! "confidence").
Proof. apply (main_loop_returns taxonomy rows 0). Qed.

(** X7. When the run completes, the output has one row of cells per row of
    the sheet, in the order of the sheet. Each row of cells holds exactly
    the fourteen required columns; its Root Cause and Confidence are those
    of the row's result, and each of its twelve list cells is a member of
    its axis or the sentinel and is never the empty string. *)
Theorem run_writes_every_row
    (rows : list Row) (taxonomy : Taxonomy) (out : list (gmap string value)) :
  main_loop json_loads post 0 rows taxonomy = Some out ->
  length out = length rows
  /\ forall i row, rows !! i = Some row ->
     exists cells,
       out !! i = Some cells
       /\ (forall column,
             is_Some (cells !! column) <-> column ∈ required_columns)
       /\ cells !! "Root Cause"
          = process_row json_loads post i row taxonomy !! "root_cause"
       /\ cells !! "Confidence"
          = process_row json_loads post i row taxonomy !! "confidence"
       /\ (forall column axis, (column, axis) ∈ label_columns ->
             column <> "Root Cause" ->
             exists s, cells !! column = Some (VStr s) /\ s <> ""
                       /\ (s ∈ axis taxonomy \/ s = NOT_MENTIONED)).
Proof.
  intros H. destruct (main_loop_lookup _ _ _ _ H) as [Hlen Hrows].
  split; [done|]. intros i row Hi.
  specialize (Hrows i row Hi). simpl in Hrows.
  destruct (out !! i) as [cells|] eqn:Eo.
  - exists cells. split; [done|].
    apply (update_row_columns taxonomy _ _
             (process_row_labels_ok json_loads post i row taxonomy) Hrows).
  - apply lookup_lt_Some in Hi. apply lookup_ge_None in Eo. lia.
Qed.

End Loop.

Lemma run_writes_every_row_scenario :
  let post := fun (_ : nat) (_ : string) => @None Response in
  let json_loads := fun _ : string => @None value in
  let row := {| Complaint := Some "wheel makes clicking noise";
                Cause := None; Correction := None |} in
  length [failed_cells; failed_cells] = length [row; row]
  /\ forall i r, [row; row] !! i = Some r ->
     exists cells,
       [failed_cells; failed_cells] !! i = Some cells
       /\ (forall column,
             is_Some (cells !! column) <-> column ∈ required_columns)
       /\ cells !! "Root Cause"
          = process_row json_loads post i r scenario_taxonomy !! "root_cause"
       /\ cells !! "Confidence"
          = process_row json_loads post i r scenario_taxonomy !! "confidence"
       /\ (forall column axis, (column, axis) ∈ label_columns ->
             column <> "Root Cause" ->
             exists s, cells !! column = Some (VStr s) /\ s <> ""
                       /\ (s ∈ axis scenario_taxonomy \/ s = NOT_MENTIONED)).
Proof.
  intros post json_loads row.
  apply (run_writes_every_row json_loads post [row; row] scenario_taxonomy).
  reflexivity.
Defined.

(** ** The rule of the claim and the test of the code *)

Lemma item_ok_iff allowed item :
  item_ok allowed item = true <-> allowed_label allowed item.
Proof. split; [apply item_ok_allowed|apply allowed_item_ok]. Qed.


Lemma bad_items_rejected allowed field :
  bad_items allowed (items_of field) = rejected allowed field.
Proof.
  unfold rejected. induction (items_of field) as [|item rest IH]; [done|].
  rewrite bad_items_cons, filter_cons, IH.
  destruct (item_ok allowed item) eqn:E; case_decide as H; try done.
  - by apply item_ok_iff in E.
  - apply item_ok_iff in H. congruence.
Qed.

Lemma total_bad_rejected taxonomy d :
  total_bad taxonomy list_fields d =
  (rejected (Symptom_Condition taxonomy) (d !! "symptom_condition")
   + rejected (Symptom_Component taxonomy) (d !! "symptom_component")
   + rejected (Fix_Condition taxonomy) (d !! "fix_condition")
   + rejected (Fix_Component taxonomy) (d !! "fix_component"))%nat.
Proof.
  unfold total_bad, list_fields. cbn [map sum_list fst snd].
  rewrite !bad_items_rejected. unfold id. lia.
Qed.

(** ** A confidence that is a number *)










(** The same on an answer whose confidence is the integer 1, with two
    elements to replace in one list, of which the second is cut off with
    the fourth element: the confidence is 1.0 * 0.9 * 0.9. *)
Example integer_confidence_scaled :
  let answer : gmap string value :=
    list_to_map [
      ("root_cause", VStr "Wear");
      ("symptom_condition", VList []);
      ("symptom_component",
       VList [VStr "Steering Wheel"; VStr "Horn mechanism"; VStr "";
              VStr "horn"]);
      ("confidence", VInt 1) ] in
  exists v,
    validate_llm_output (VDict answer) scenario_taxonomy = Some v
    /\ v !! "symptom_component" =
         Some (VList [VStr "Not Mentioned"; VStr "Horn mechanism"; VStr ""])
    /\ v !! "fix_condition" =
         Some (VList [VStr "Not Mentioned"; VStr ""; VStr ""])
    /\ v !! "confidence" = Some (VFloat (1 * 0.9 * 0.9)%float).
Proof. eexists. split; [reflexivity|]. by vm_compute. Qed.

Lemma rejected_none allowed field :
  (forall items, field = Some (VList items) ->
                 Forall (allowed_label allowed) items) ->
  rejected allowed field = 0%nat.
Proof.
  intros H. unfold rejected.
  assert (Hall : Forall (allowed_label allowed) (items_of field)).
  { destruct field as [v|]; [|by constructor].
    destruct v; try (by constructor). by apply H. }
  induction Hall as [|item rest Hi _ IH]; [done|].
  rewrite filter_cons. by case_decide.
Qed.

Section MissingFields.
Variable json_loads : string -> option value.
Variable post : nat -> string -> option Response.

(** C3 fails on an answer that lacks the confidence field. The call
    succeeds, so [call_llm_api] returns the answer and not the default
    dict. When the labels of the answer are allowed, validation has nothing
    to multiply: it gives every missing list its default and returns a
    result that is not the default result and has no confidence. The main
    loop then subscripts the result with the missing key outside every
    [try]: the exception ends the run before any row is saved, for the rows
    before this one too. *)
Theorem missing_confidence_ends_run
    (n : nat) (row : Row) (taxonomy : Taxonomy) (d : gmap string value) :
  call_llm_api_try json_loads post n (prompt_of row taxonomy) = Some (VDict d) ->
  d !! "confidence" = None ->
  (exists s, d !! "root_cause" = Some (VStr s)
             /\ (s ∈ Root_Cause taxonomy \/ s = NOT_MENTIONED)) ->
  (forall key axis items,
     (key, axis) ∈ [ ("symptom_condition", Symptom_Condition);
                     ("symptom_component", Symptom_Component);
                     ("fix_condition", Fix_Condition);
                     ("fix_component", Fix_Component) ] ->
     d !! key = Some (VList items) ->
     Forall (allowed_label (axis taxonomy)) items) ->
  call_llm_api json_loads post n (prompt_of row taxonomy) = VDict d
  /\ process_row json_loads post n row taxonomy !! "confidence" = None
  /\ process_row json_loads post n row taxonomy <> default_result
  /\ update_row (process_row json_loads post n row taxonomy) = None
  /\ forall before after, n = length before ->
       main_loop json_loads post 0 (before ++ row :: after) taxonomy = None.
Proof.
  intros Hcall Hc Hroot Hlists.
  assert (Hapi : call_llm_api json_loads post n (prompt_of row taxonomy)
                 = VDict d) by (unfold call_llm_api; by rewrite Hcall).
  pose proof (validate_no_confidence taxonomy d Hc) as Hv.
  apply root_bad_false in Hroot. rewrite Hroot, total_bad_rejected in Hv.
  rewrite !rejected_none in Hv
    by (intros items Hi; eapply Hlists; [|exact Hi]; repeat constructor).
  cbn [orb negb Nat.eqb Nat.add] in Hv. destruct Hv as (v & Hv & Hvc).
  assert (Hp : process_row json_loads post n row taxonomy = v).
  { unfold process_row. fold (prompt_of row taxonomy). by rewrite Hapi, Hv. }
  assert (Hu : update_row (process_row json_loads post n row taxonomy) = None).
  { rewrite Hp. apply eq_None_not_Some.
    rewrite (update_row_returns taxonomy); [|by eapply validated_labels_ok].
    rewrite Hvc. by intros [? ?]. }
  split; [done|]. split; [by rewrite Hp|]. split.
  { rewrite Hp. intros ->. discriminate Hvc. }
  split; [done|].
  intros before after ->. rewrite main_loop_app.
  destruct (main_loop json_loads post 0 before taxonomy); [|done].
  cbn [mbind option_bind main_loop]. simpl Nat.add. by rewrite Hu.
Qed.

End MissingFields.

Lemma missing_confidence_scenario :
  let answer : gmap string value :=
    list_to_map [("root_cause", VStr "Not Mentioned")] in
  let json_loads := fun _ : string => Some (VDict answer) in
  let body :=
    VDict (list_to_map [("choices", VList [VDict (list_to_map
      [("message", VDict (list_to_map [("content", VStr "{}")]))])])]) in
  let post := fun (_ : nat) (_ : string) =>
    Some {| raise_for_status := Some tt; json := Some body |} in
  let row := {| Complaint := Some "wheel makes clicking noise";
                Cause := None; Correction := None |} in
  call_llm_api json_loads post 0 (prompt_of row scenario_taxonomy)
    = VDict answer
  /\ process_row json_loads post 0 row scenario_taxonomy !! "confidence" = None
  /\ process_row json_loads post 0 row scenario_taxonomy <> default_result
  /\ update_row (process_row json_loads post 0 row scenario_taxonomy) = None
  /\ forall before after, 0%nat = length before ->
       main_loop json_loads post 0 (before ++ row :: after) scenario_taxonomy
       = None.
Proof.
  intros answer json_loads body post row.
  apply (missing_confidence_ends_run json_loads post 0 row scenario_taxonomy
           answer).
  - reflexivity.
  - reflexivity.
  - exists "Not Mentioned". split; [reflexivity|by right].
  - intros key axis items Hin Hk. exfalso.
    repeat (apply elem_of_cons in Hin as [Heq|Hin];
            [injection Heq as -> _; discriminate Hk|]).
    by apply elem_of_nil in Hin.
Defined.

End AxionRayFacts.

Module LLMTaggerFacts.
Import Py Http LLMTagger.

Section Cache.
Variable md5_hexdigest : string -> string.
Variable json_loads : string -> option value.
Variable post : nat -> string -> option Response.

Local Abbreviation key := (_generate_llm_cache_key md5_hexdigest).
Local Abbreviation call := (_call_llm md5_hexdigest json_loads post).
Local Abbreviation run := (LLMTagger.run md5_hexdigest json_loads post).

(** A cache hit returns the cached value and sends nothing. *)
Lemma call_hit prompt st cached :
  llm_cache st !! key prompt = Some cached ->
  call prompt st = (Some cached, st).
Proof. intros H. unfold _call_llm. by rewrite H. Qed.

(** A cache miss sends one request; the result is cached when the method
    returns. *)
Lemma call_miss prompt st :
  llm_cache st !! key prompt = None ->
  exists result,
    call prompt st =
      (result,
       {| llm_cache := match result with
                       | Some r => <[key prompt := r]> (llm_cache st)
                       | None => llm_cache st
                       end;
          requests := requests st ++ [prompt] |}).
Proof.
  intros H. unfold _call_llm. rewrite H.
  destruct (ensure_keys _ _) as [r|]; [by exists (Some r) | by exists None].
Qed.

Lemma call_step prompt st result st' :
  call prompt st = (result, st') ->
  NoDup (requests st) -> sent_cached md5_hexdigest st ->
  NoDup (requests st')
  /\ (is_Some result -> sent_cached md5_hexdigest st')
  /\ (forall p, p ∈ requests st' -> p ∈ requests st \/ p = prompt)
  /\ (forall k v, llm_cache st !! k = Some v -> llm_cache st' !! k = Some v)
  /\ (cached_sent md5_hexdigest st -> cached_sent md5_hexdigest st')
  /\ (is_Some result -> is_Some (llm_cache st' !! key prompt)).
Proof.
  intros H Hnd Hsc.
  destruct (llm_cache st !! key prompt) as [cached|] eqn:E.
  - rewrite (call_hit _ _ _ E) in H. injection H as <- <-.
    rewrite E. repeat split; eauto.
  - destruct (call_miss _ _ E) as [r Hr]. rewrite Hr in H.
    injection H as <- <-. simpl.
    assert (Hnew : prompt ∉ requests st).
    { intros Hin. apply Hsc in Hin. rewrite E in Hin. by destruct Hin. }
    split. { apply NoDup_app. split; [done|]. split; [|apply NoDup_singleton].
             intros x Hx Hx'. apply list_elem_of_singleton in Hx'. by subst. }
    split. { intros [r' ->] p Hp. simpl in *.
             apply elem_of_app in Hp as [Hp|Hp].
             - destruct (decide (key prompt = key p)) as [Heq|Hne].
               + rewrite Heq, lookup_insert_eq. eauto.
               + rewrite lookup_insert_ne by done. by apply Hsc.
             - apply list_elem_of_singleton in Hp as ->.
               rewrite lookup_insert_eq. eauto. }
    split. { intros p Hp. apply elem_of_app in Hp as [Hp|Hp]; [by left|].
             apply list_elem_of_singleton in Hp. by right. }
    split. { intros k v Hk. destruct r as [r|]; [|done].
             rewrite lookup_insert_ne; [done|]. intros <-. congruence. }
    split. { intros Hcs k Hk. destruct r as [r|]; simpl in Hk.
             - destruct (decide (key prompt = k)) as [<-|Hne].
               + exists prompt. split; [|done]. apply elem_of_app. right.
                 by apply list_elem_of_singleton.
               + rewrite lookup_insert_ne in Hk by done.
                 destruct (Hcs _ Hk) as (p & Hp & <-). exists p.
                 split; [|done]. apply elem_of_app. by left.
             - destruct (Hcs _ Hk) as (p & Hp & <-). exists p.
               split; [|done]. apply elem_of_app. by left. }
    intros [r' ->]. rewrite lookup_insert_eq. eauto.
Qed.

Lemma run_steps prompts : forall st results st',
  run prompts st = (results, st') ->
  NoDup (requests st) -> sent_cached md5_hexdigest st ->
  NoDup (requests st')
  /\ (forall p, p ∈ requests st' -> p ∈ requests st \/ p ∈ prompts)
  /\ (forall k v, llm_cache st !! k = Some v -> llm_cache st' !! k = Some v)
  /\ (cached_sent md5_hexdigest st -> cached_sent md5_hexdigest st')
  /\ (is_Some results ->
      forall p, p ∈ prompts -> is_Some (llm_cache st' !! key p)).
Proof.
  induction prompts as [|prompt rest IH]; intros st results st' H Hnd Hsc.
  - injection H as <- <-. repeat split; eauto.
    intros _ p Hp. by apply elem_of_nil in Hp.
  - cbn [LLMTagger.run] in H.
    destruct (call prompt st) as [[r|] st1] eqn:E1.
    + destruct (run rest st1) as [results1 st2] eqn:E2.
      injection H as <- <-.
      destruct (call_step _ _ _ _ E1 Hnd Hsc) as (Hnd1 & Hsc1 & Hreq1 & Hmono1 & Hcs1 & Hk1).
      destruct (IH _ _ _ E2 Hnd1 (Hsc1 (mk_is_Some _ _ eq_refl)))
        as (Hnd2 & Hreq2 & Hmono2 & Hcs2 & Hk2).
      split; [done|]. split.
      { intros p Hp. destruct (Hreq2 _ Hp) as [Hp1|Hp1].
        - destruct (Hreq1 _ Hp1) as [?| ->]; [by left|]. right. by left.
        - right. by right. }
      split; [eauto|]. split; [eauto|].
      intros Hres p Hp. apply elem_of_cons in Hp as [->|Hp].
      * destruct (Hk1 (mk_is_Some _ _ eq_refl)) as [v Hv].
        rewrite (Hmono2 _ _ Hv). eauto.
      * apply Hk2; [|done]. destruct results1; [eauto|].
        simpl in Hres. by destruct Hres.
    + injection H as <- <-.
      destruct (call_step _ _ _ _ E1 Hnd Hsc) as (Hnd1 & _ & Hreq1 & Hmono1 & Hcs1 & _).
      split; [done|]. split.
      { intros p Hp. destruct (Hreq1 _ Hp) as [?| ->]; [by left|]. right. by left. }
      split; [done|]. split; [done|]. intros [? ?]. done.
Qed.

Lemma init_invariant :
  NoDup (requests init) /\ sent_cached md5_hexdigest init
  /\ cached_sent md5_hexdigest init.
Proof.
  split; [apply NoDup_nil_2|]. split.
  - intros p Hp. by apply elem_of_nil in Hp.
  - intros k [v Hv]. simpl in Hv. by rewrite lookup_empty in Hv.
Qed.


(** A cached value is never replaced or removed. *)
Lemma call_keeps_cache prompt st result st' k v :
  call prompt st = (result, st') ->
  llm_cache st !! k = Some v -> llm_cache st' !! k = Some v.
Proof.
  intros H Hk. destruct (llm_cache st !! key prompt) as [cached|] eqn:E.
  - rewrite (call_hit _ _ _ E) in H. by injection H as <- <-.
  - destruct (call_miss _ _ E) as [r Hr]. rewrite Hr in H.
    injection H as <- <-. simpl. destruct r as [r|]; [|done].
    rewrite lookup_insert_ne; [done|]. intros <-. congruence.
Qed.

Lemma run_keeps_cache prompts : forall st results st' k v,
  run prompts st = (results, st') ->
  llm_cache st !! k = Some v -> llm_cache st' !! k = Some v.
Proof.
  induction prompts as [|prompt rest IH]; intros st results st' k v H Hk.
  - by injection H as <- <-.
  - cbn [LLMTagger.run] in H.
    destruct (call prompt st) as [[r|] st1] eqn:E1.
    + destruct (run rest st1) as [results1 st2] eqn:E2.
      injection H as <- <-. eapply IH; [done|]. by eapply call_keeps_cache.
    + injection H as <- <-. by eapply call_keeps_cache.
Qed.

(** Two rows with the same prompt at the start of a run: one request. *)
Lemma same_prompt_twice prompt :
  requests (run [prompt; prompt] init).2 = [prompt].
Proof.
  cbn [LLMTagger.run].
  destruct (call_miss prompt init) as [r Hr]; [apply lookup_empty|].
  rewrite Hr. destruct r as [r|]; [|done].
  erewrite call_hit; [done|]. simpl. apply lookup_insert_eq.
Qed.

(** C4. In a run of the tagger, which starts with an empty cache, no
    prompt is sent to the service twice, and only prompts of the run are
    sent. The cache key is a function of the prompt text; on a cache hit
    [_call_llm] returns the cached value and leaves the log of requests as
    it is. Two rows with the same prompt cause exactly one request; more
    generally, in a run that completes, a prompt whose key no other prompt
    of the run shares is sent exactly once. *)
Theorem one_request_per_prompt (prompts : list string) :
  let st := (run prompts init).2 in
  NoDup (requests st)
  /\ (forall p, p ∈ requests st -> p ∈ prompts)
  /\ (forall p st0 cached,
        llm_cache st0 !! key p = Some cached ->
        call p st0 = (Some cached, st0))
  /\ (forall p, requests (run [p; p] init).2 = [p])
  /\ (is_Some (run prompts init).1 ->
      forall p, p ∈ prompts ->
        (forall q, q ∈ prompts -> key q = key p -> q = p) ->
        p ∈ requests st).
Proof.
  intros st. subst st.
  destruct (run prompts init) as [results st] eqn:E. simpl.
  destruct init_invariant as (Hnd & Hsc & Hcs).
  destruct (run_steps _ _ _ _ E Hnd Hsc) as (Hnd' & Hreq & _ & Hcs' & Hall).
  split; [done|]. split.
  { intros p Hp. destruct (Hreq _ Hp) as [Hp'|]; [|done].
    by apply elem_of_nil in Hp'. }
  split; [apply call_hit|]. split; [apply same_prompt_twice|].
  intros Hres p Hp Hinj.
  destruct (Hcs' Hcs _ (Hall Hres _ Hp)) as (q & Hq & Hkey).
  assert (q = p) as ->; [|done].
  apply Hinj; [|done]. destruct (Hreq _ Hq) as [Hq'|]; [|done].
  by apply elem_of_nil in Hq'.
Qed.

Lemma call_fails_llm_try n prompt :
  call_fails (fun s => json_loads (json_str_of s)) (post n prompt) ->
  call_llm_try json_loads post n prompt = None.
Proof.
  unfold call_llm_try. intros H.
  inversion H as [Hp | r Hr Hp | r Hr Hp | r Hr Hp | r c Hr Hc Hp | r s Hr Hj Hp];
    simpl; [done|..].
  - by rewrite Hr.
  - destruct (raise_for_status r); [|done]. simpl.
    unfold message_content. by rewrite Hr.
  - destruct (raise_for_status r); [|done]. simpl. by rewrite Hr.
  - destruct (raise_for_status r); [|done]. simpl. rewrite Hr. simpl.
    destruct c; try done. by destruct (Hc s).
  - destruct (raise_for_status r); [|done]. simpl. rewrite Hr. simpl. done.
Qed.

(** C10. When the call for a prompt that is not cached fails, [_call_llm]
    returns the default result with its three empty lists and stores it in
    the cache under the key of the prompt, having sent one request. From
    then on, whatever else the run calls, [_call_llm] on the same prompt
    returns that default from the cache and sends nothing: the failed call
    is not tried again. *)
Theorem failed_call_is_cached (prompt : string) (st : state) :
  llm_cache st !! key prompt = None ->
  call_fails (fun s => json_loads (json_str_of s))
    (post (length (requests st)) prompt) ->
  let st1 := {| llm_cache := <[key prompt := failed_result]> (llm_cache st);
                requests := requests st ++ [prompt] |} in
  call prompt st = (Some failed_result, st1)
  /\ failed_result =
       VDict (list_to_map [("issues", VList []); ("components", VList []);
                           ("actions", VList [])])
  /\ forall prompts results st2,
       run prompts st1 = (results, st2) ->
       call prompt st2 = (Some failed_result, st2).
Proof.
  intros Hmiss Hfail st1. split; [|split; [done|]].
  - unfold _call_llm. rewrite Hmiss.
    by rewrite (call_fails_llm_try _ _ Hfail).
  - intros prompts results st2 Hrun. apply call_hit.
    eapply run_keeps_cache; [done|]. simpl. apply lookup_insert_eq.
Qed.

End Cache.

(** A network error on the first call of a run. *)
Lemma failed_call_is_cached_network_error :
  let md5 := fun s : string => s in
  let json_loads := fun _ : string => @None value in
  let post := fun (_ : nat) (_ : string) => @None Response in
  let st1 := {| llm_cache := <[md5 "prompt" := failed_result]> ∅;
                requests := [] ++ ["prompt"] |} in
  _call_llm md5 json_loads post "prompt" init = (Some failed_result, st1)
  /\ failed_result =
       VDict (list_to_map [("issues", VList []); ("components", VList []);
                           ("actions", VList [])])
  /\ forall prompts results st2,
       LLMTagger.run md5 json_loads post prompts st1 = (results, st2) ->
       _call_llm md5 json_loads post "prompt" st2 = (Some failed_result, st2).
Proof.
  intros md5 json_loads post.
  apply (failed_call_is_cached md5 json_loads post "prompt" init).
  - reflexivity.
  - apply network_error.
Defined.

End LLMTaggerFacts.

Module RulesFacts.
Import Py Http LLMTagger.

Section Rules.
Variable repr : value -> string.
Variable float_of_str : string -> option float.







End Rules.


(** A row without the field is a row with repair age 0. *)
Lemma missing_repair_age_is_zero (row : gmap string value) :
  row !! "REPAIR_AGE" = None -> repair_age_is_zero row.
Proof. intros H. unfold repair_age_is_zero, row_get. by rewrite H. Qed.

End RulesFacts.

Module PandasFacts.
Import Py Pandas.

Lemma get_set_column df name c :
  get_column (set_column df name c) name = Some c.
Proof.
  induction df as [|[k c0] rest IH]; simpl.
  - by rewrite String.eqb_refl.
  - destruct (String.eqb k name) eqn:E; simpl; rewrite E; [done|apply IH].
Qed.

Lemma get_set_column_ne df name other c :
  name <> other ->
  get_column (set_column df name c) other = get_column df other.
Proof.
  intros Hne. induction df as [|[k c0] rest IH]; simpl.
  - apply String.eqb_neq in Hne. by rewrite Hne.
  - destruct (String.eqb k name) eqn:E; simpl.
    + apply String.eqb_eq in E as ->. apply String.eqb_neq in Hne.
      by rewrite Hne.
    + by rewrite IH.
Qed.


Lemma Qltb_lt a b : Qltb a b = true <-> (a < b)%Q.
Proof.
  unfold Qltb. rewrite negb_true_iff. split.
  - intros H. apply Qnot_le_lt. intros Hle.
    apply Qle_bool_iff in Hle. congruence.
  - intros H. destruct (Qle_bool b a) eqn:E; [|done].
    apply Qle_bool_iff in E. by apply Qlt_not_le in H.
Qed.

Lemma outlier_mask_length xs : length (outlier_mask xs) = length xs.
Proof.
  unfold outlier_mask.
  destruct (quantile xs (1 # 4)), (quantile xs (3 # 4)); apply length_map.
Qed.

(** The mask flags exactly the values outside the IQR fences. *)
Lemma outlier_mask_spec xs i :
  outlier_mask xs !! i = Some true <->
  exists v Q1 Q3,
    xs !! i = Some (Some v)
    /\ quantile xs (1 # 4) = Some Q1 /\ quantile xs (3 # 4) = Some Q3
    /\ (v < Q1 - (3 # 2) * (Q3 - Q1) \/ Q3 + (3 # 2) * (Q3 - Q1) < v)%Q.
Proof.
  unfold outlier_mask.
  destruct (quantile xs (1 # 4)) as [Q1|], (quantile xs (3 # 4)) as [Q3|];
    rewrite list_lookup_fmap.
  - destruct (xs !! i) as [[v|]|]; simpl.
    + split.
      * intros [= H]. exists v, Q1, Q3. repeat split.
        apply orb_true_iff in H. by rewrite <- !Qltb_lt.
      * intros (v' & q1 & q3 & [= <-] & [= <-] & [= <-] & H).
        rewrite <- !Qltb_lt, <- orb_true_iff in H. by rewrite H.
    + split; [done|]. by intros (? & ? & ? & ? & _).
    + split; [done|]. by intros (? & ? & ? & ? & _).
  - split; [by destruct (xs !! i)|]. by intros (? & ? & ? & _ & _ & ? & _).
  - split; [by destruct (xs !! i)|]. by intros (? & ? & ? & _ & ? & _).
  - split; [by destruct (xs !! i)|]. by intros (? & ? & ? & _ & ? & _).
Qed.

Lemma insert_sorted_length {A} (leb : A -> A -> bool) x l :
  length (insert_sorted leb x l) = S (length l).
Proof.
  induction l as [|y l IH]; simpl; [done|].
  destruct (leb x y); simpl; by rewrite ?IH.
Qed.

Lemma sort_length {A} (leb : A -> A -> bool) l :
  length (sort leb l) = length l.
Proof.
  induction l as [|x l IH]; simpl; [done|].
  by rewrite insert_sorted_length, IH.
Qed.



(** A quantile of a column with a value is a number. *)
Lemma quantile_defined xs q :
  (0 <= q)%Q -> (q <= 1)%Q -> dropna xs <> [] ->
  is_Some (quantile xs q).
Proof.
  intros H0 H1 Hne. unfold quantile.
  set (vals := sort Qle_bool (dropna xs)).
  assert (Hlen : (0 < length vals)%nat).
  { unfold vals. rewrite sort_length. destruct (dropna xs); [done|simpl; lia]. }
  set (h := (inject_Z (Z.of_nat (length vals - 1)) * q)%Q).
  assert (Hh0 : (0 <= h)%Q).
  { unfold h. apply Qmult_le_0_compat; [|done].
    change 0%Q with (inject_Z 0). rewrite <- Zle_Qle. lia. }
  assert (Hh1 : (h <= inject_Z (Z.of_nat (length vals - 1)))%Q).
  { assert (Hn : (0 <= inject_Z (Z.of_nat (length vals - 1)))%Q).
    { change 0%Q with (inject_Z 0). rewrite <- Zle_Qle. lia. }
    assert (H : (h <= inject_Z (Z.of_nat (length vals - 1)) * 1)%Q).
    { unfold h. apply Qmult_le_compat_nonneg; split; try done. apply Qle_refl. }
    by rewrite Qmult_1_r in H. }
  assert (Hf : (0 <= Qfloor h <= Z.of_nat (length vals - 1))%Z).
  { split.
    - change 0%Z with (Qfloor (inject_Z 0)). by apply Qfloor_resp_le.
    - rewrite <- (Qfloor_Z (Z.of_nat (length vals - 1))). by apply Qfloor_resp_le. }
  assert (Hc : (0 <= Qceiling h <= Z.of_nat (length vals - 1))%Z).
  { split.
    - change 0%Z with (Qceiling (inject_Z 0)). by apply Qceiling_resp_le.
    - rewrite <- (Qceiling_Z (Z.of_nat (length vals - 1))). by apply Qceiling_resp_le. }
  destruct (lookup_lt_is_Some_2 vals (Z.to_nat (Qfloor h))) as [a ->]; [lia|].
  destruct (lookup_lt_is_Some_2 vals (Z.to_nat (Qceiling h))) as [b ->]; [lia|].
  simpl. eauto.
Qed.


(** ** The order of strings *)








(** ** The head of a sorted list *)






End PandasFacts.

Module CleanerFacts.
Import Py Pandas Profiler Cleaner PandasFacts.

Lemma append_neq_self (s t : string) : t <> "" -> s +:+ t <> s.
Proof.
  intros Ht H. apply Ht. clear Ht.
  induction s as [|c s IH]; simpl in H; [done|].
  injection H as H. by apply IH.
Qed.

Lemma has_type_eq profile ty :
  has_type profile ty = true <-> column_type profile = Some ty.
Proof.
  unfold has_type. destruct (column_type profile) as [t|]; [|done].
  rewrite String.eqb_eq. split; congruence.
Qed.

Lemma has_type_other profile ty ty' :
  has_type profile ty = true -> ty <> ty' -> has_type profile ty' = false.
Proof.
  rewrite has_type_eq. intros H Hne. unfold has_type. rewrite H.
  by apply String.eqb_neq.
Qed.

Section Clean.
Variable title : string -> string.
Variable to_datetime_lib : column -> option column.
Variable median_date : list (option Z) -> option Z.

Local Abbreviation impute := (impute median_date).
Local Abbreviation normalize := (normalize title).
Local Abbreviation convert_date := (convert_date to_datetime_lib).
Local Abbreviation clean_column :=
  (clean_column title to_datetime_lib median_date).
Local Abbreviation clean_columns :=
  (clean_columns title to_datetime_lib median_date).
Local Abbreviation clean_data :=
  (clean_data title to_datetime_lib median_date).

(** The imputation block on a numerical column. *)
Lemma impute_numerical col profile df log xs :
  has_type profile "numerical" = true ->
  get_column df col = Some (NumCol xs) ->
  exists df',
    impute col profile (df, log) =
      Some (df', log ++ imputation_log profile col xs)
    /\ get_column df' col = Some (NumCol (imputed profile xs))
    /\ (forall other, other <> col ->
          get_column df' other = get_column df other).
Proof.
  intros Hty Hcol. unfold impute, imputed, imputation_log.
  destruct (0 <? missing_count profile)%nat.
  - rewrite Hty, Hcol. simpl. eexists. split; [done|]. split.
    + apply get_set_column.
    + intros other Hne. by apply get_set_column_ne.
  - rewrite app_nil_r. eauto.
Qed.

(** On a column of numeric dtype, with numbers and their arithmetic taken
    exactly: when the profile has a positive outlier count,
    the loop body of [clean_data] adds the column [<col>_OUTLIER], in which
    a row is flagged exactly when its value after imputation lies below
    Q1 - 1.5 IQR or above Q3 + 1.5 IQR, Q1 and Q3 being the quartiles of the
    values after imputation; a missing value is not flagged. It appends one
    insight with the number of flagged rows, after the insight of the
    imputation when there was one. *)
Theorem outlier_flags_follow_iqr
    (col : string) (profile : Profile) (df : table) (log : list insight)
    (xs : list (option Q)) :
  has_type profile "numerical" = true ->
  (0 < default 0 (outlier_count profile))%nat ->
  get_column df col = Some (NumCol xs) ->
  let values := imputed profile xs in
  let mask := outlier_mask values in
  exists df',
    clean_column col profile (df, log) =
      Some (df', log ++ imputation_log profile col xs
                     ++ [FlaggedOutliers col (count_true mask)])
    /\ get_column df' (col +:+ "_OUTLIER") = Some (BoolCol mask)
    /\ get_column df' col = Some (NumCol values)
    /\ length mask = length xs
    /\ (forall i,
        mask !! i = Some true <->
        exists v Q1 Q3,
          values !! i = Some (Some v)
          /\ quantile values (1 # 4) = Some Q1
          /\ quantile values (3 # 4) = Some Q3
          /\ (v < Q1 - (3 # 2) * (Q3 - Q1)
              \/ Q3 + (3 # 2) * (Q3 - Q1) < v)%Q).
Proof.
  intros Hty Hout Hcol values mask.
  destruct (impute_numerical col profile df log xs Hty Hcol)
    as (df1 & Himp & Hcol1 & Hother).
  exists (set_column df1 (col +:+ "_OUTLIER") (BoolCol mask)).
  split; [|split; [|split; [|split]]].
  - unfold Cleaner.clean_column.
    destruct (column_type profile) as [ty|] eqn:Ety;
      [|by apply has_type_eq in Hty; congruence].
    rewrite Himp. cbn [mbind option_bind].
    unfold Cleaner.normalize, Cleaner.convert_date, flag_outliers.
    rewrite (has_type_other profile "numerical" "categorical") by done.
    rewrite (has_type_other profile "numerical" "date") by done.
    cbn [andb mbind option_bind]. rewrite Hty.
    apply Nat.ltb_lt in Hout. rewrite Hout. cbn [andb].
    rewrite Hcol1. cbn [mbind option_bind]. by rewrite <- app_assoc.
  - apply get_set_column.
  - rewrite get_set_column_ne; [done|]. by apply append_neq_self.
  - unfold mask. rewrite outlier_mask_length. unfold values, imputed.
    destruct (0 <? missing_count profile)%nat; [apply length_map|done].
  - intros i. apply outlier_mask_spec.
Qed.






End Clean.

(** The scenario column: Q1 = 2, Q3 = 4, IQR = 2, and only 100 is
    flagged. *)
Example scenario_quartiles :
  quantile scenario_column (1 # 4) = Some 2%Q
  /\ quantile scenario_column (3 # 4) = Some 4%Q
  /\ outlier_mask scenario_column = [false; false; false; false; true]
  /\ Pandas.median [Some 1%Q; Some 2%Q; None; Some 3%Q; Some 4%Q; Some 100%Q]
     = Some 3%Q.
Proof. by vm_compute. Qed.

Lemma outlier_flags_scenario :
  let title := fun s : string => s in
  let to_datetime_lib := fun _ : column => @None column in
  let median_date := fun _ : list (option Z) => @None Z in
  let values := imputed scenario_profile scenario_column in
  let mask := outlier_mask values in
  exists df',
    clean_column title to_datetime_lib median_date "X" scenario_profile
      ([("X", NumCol scenario_column)], []) =
      Some (df', [] ++ imputation_log scenario_profile "X" scenario_column
                    ++ [FlaggedOutliers "X" (count_true mask)])
    /\ get_column df' ("X" +:+ "_OUTLIER") = Some (BoolCol mask)
    /\ get_column df' "X" = Some (NumCol values)
    /\ length mask = length scenario_column
    /\ (forall i,
        mask !! i = Some true <->
        exists v Q1 Q3,
          values !! i = Some (Some v)
          /\ quantile values (1 # 4) = Some Q1
          /\ quantile values (3 # 4) = Some Q3
          /\ (v < Q1 - (3 # 2) * (Q3 - Q1)
              \/ Q3 + (3 # 2) * (Q3 - Q1) < v)%Q).
Proof.
  intros title to_datetime_lib median_date.
  apply (outlier_flags_follow_iqr title to_datetime_lib median_date
           "X" scenario_profile [("X", NumCol scenario_column)] []
           scenario_column).
  - reflexivity.
  - simpl. lia.
  - reflexivity.
Defined.






Section ObjectColumn.
Variable title : string -> string.
Variable to_datetime_lib : column -> option column.
Variable median_date : list (option Z) -> option Z.

(** The outlier block takes the quantiles of the column as it is in the
    table. On an object column, which holds strings, [quantile] raises, and
    nothing in [clean_data] catches it. *)
Lemma flag_outliers_object_column col profile df log xs :
  has_type profile "numerical" = true ->
  (0 < default 0 (outlier_count profile))%nat ->
  get_column df col = Some (ObjCol xs) ->
  flag_outliers col profile (df, log) = None.
Proof.
  intros Ht Ho Hc. unfold flag_outliers. rewrite Ht.
  apply Nat.ltb_lt in Ho. rewrite Ho. cbn [andb]. by rewrite Hc.
Qed.

End ObjectColumn.

(** C6 fails on a column of numbers stored as text. The profiler reads the
    strings as numbers: the profile of the object column ["1", "2", "3",
    "4", "100"] is numerical and has outlier_count 1 and no missing value.
    With this profile [clean_data] skips the imputation and takes the
    quartiles of the strings, which raises: no flag column is added and no
    insight is appended, the method does not return. The same values in a
    column of numeric dtype are flagged as the claim says, with the same
    profile: Q1 = 2, Q3 = 4 and only 100 is an outlier. *)
Theorem numeric_text_column_is_not_flagged :
  let cells := ObjCol [Some "1"; Some "2"; Some "3"; Some "4"; Some "100"] in
  let profile :=
    {| name := "X"; missing_count := 0; unique_count := 5;
       potential_issues := ["High outlier percentage"];
       column_type := Some "numerical"; median := Some (Some 3%Q);
       outlier_count := Some 1%nat; potential_primary_key := None |} in
  profile_columns digits_to_numeric (fun _ => false) (fun _ => true)
    [("X", cells)] = Some [("X", profile)]
  /\ (forall title to_datetime_lib median_date,
        clean_data title to_datetime_lib median_date
          (new [("X", cells)] [("X", profile)]) = None)
  /\ (forall title to_datetime_lib median_date,
        clean_data title to_datetime_lib median_date
          (new [("X", NumCol scenario_column)] [("X", profile)])
        = Some {| df_clean :=
                    [("X", NumCol scenario_column);
                     ("X_OUTLIER",
                      BoolCol [false; false; false; false; true])];
                  column_profiles := [("X", profile)];
                  insights := [FlaggedOutliers "X" 1] |}).
Proof.
  intros cells profile. split; [by vm_compute|]. split.
  - intros title to_datetime_lib median_date. reflexivity.
  - intros title to_datetime_lib median_date. by vm_compute.
Qed.

End CleanerFacts.

Module ProfilerFacts.
Import Py Pandas Profiler.

Section Profile.
Variable to_numeric : list string -> option (list Q).
Variable parses_as_dates : list string -> bool.
Variable is_string_dtype : list (option string) -> bool.

Local Abbreviation profile_column :=
  (profile_column to_numeric parses_as_dates is_string_dtype).

(** An object column whose cells [pd.to_numeric] accepts is stored by the
    branch that ends in [continue]: its profile is numerical and has no
    primary key field, whatever its counts are. *)
Lemma coercible_column_lacks_primary_key col xs numeric_data :
  to_numeric (dropna xs) = Some numeric_data ->
  exists profile,
    profile_column col (ObjCol xs) = Some profile
    /\ column_type profile = Some "numerical"
    /\ unique_count profile = nunique (ObjCol xs)
    /\ missing_count profile = count_true (isna (ObjCol xs))
    /\ potential_primary_key profile = None.
Proof.
  intros H. unfold Profiler.profile_column. rewrite H.
  eexists. split; [done|]. done.
Qed.

(** Every other column that is profiled gets the field, and it says whether
    the values are all distinct and none is missing. *)
Lemma primary_key_field_elsewhere col col_data profile :
  profile_column col col_data = Some profile ->
  (forall xs, col_data = ObjCol xs -> to_numeric (dropna xs) = None) ->
  unique_count profile = nunique col_data
  /\ missing_count profile = count_true (isna col_data)
  /\ potential_primary_key profile =
       Some ((nunique col_data =? len col_data)%nat
             && (count_true (isna col_data) =? 0)%nat).
Proof.
  intros H Hobj. unfold Profiler.profile_column in H.
  destruct col_data as [xs|xs|xs|xs].
  - by injection H as <-.
  - rewrite (Hobj xs eq_refl) in H. injection H as <-.
    repeat match goal with |- context [if ?b then _ else _] => destruct b end;
      done.
  - discriminate.
  - by injection H as <-.
Qed.

End Profile.

(** C8 fails on this input. The column ID holds three distinct identifiers
    stored as text and none is missing, so its unique count equals the row
    count and its missing count is 0; the profile stored for it has no
    primary key field. *)
Theorem id_column_has_no_primary_key_field :
  profile_columns digits_to_numeric (fun _ => false) (fun _ => true) id_table
  = Some [("ID",
           {| name := "ID"; missing_count := 0; unique_count := 3;
              potential_issues := []; column_type := Some "numerical";
              median := Some (Some 2%Q); outlier_count := Some 0%nat;
              potential_primary_key := None |})]
  /\ nunique (ObjCol [Some "1"; Some "2"; Some "3"])
     = len (ObjCol [Some "1"; Some "2"; Some "3"])
  /\ count_true (isna (ObjCol [Some "1"; Some "2"; Some "3"])) = 0%nat.
Proof. by vm_compute. Qed.

(** The same values in a numeric column do get the field. *)
Example numeric_id_column_has_primary_key_field :
  profile_columns digits_to_numeric (fun _ => false) (fun _ => true)
    [("ID", NumCol [Some 1%Q; Some 2%Q; Some 3%Q])]
  = Some [("ID",
           {| name := "ID"; missing_count := 0; unique_count := 3;
              potential_issues := []; column_type := Some "numerical";
              median := Some (Some 2%Q); outlier_count := Some 0%nat;
              potential_primary_key := Some true |})].
Proof. by vm_compute. Qed.

End ProfilerFacts.
